(** * chainer_mnist_local_mode.ipynb: the notebook's glue code, embedded

    The notebook is a sequence of code cells that call into the SageMaker
    SDK, Chainer, NumPy, matplotlib and the operating system.  Each cell is
    embedded as a computation in a state-and-exception monad:

    - the state holds the local file system and the log of the external
      calls made so far;
    - every external call asks the environment [env] for its outcome, which
      may be a Python exception;
    - Python variables that live across cells are passed from cell to cell.

    The library functions whose behaviour the notebook relies on
    ([os.makedirs], [shutil.rmtree], [str.replace], [random.sample],
    [ndarray.argmax]) are modelled after CPython 3.6 and NumPy.

    What the model assumes:

    - the cells are run once, from top to bottom, and an exception that
      leaves a cell ends the run;
    - a shell command ([!cmd]) never raises;
    - [os.makedirs], [np.savez] and [shutil.rmtree] can fail for any reason
      the environment chooses, and then leave behind the part of their work
      that they had done;
    - an array that [predict] returns is two-dimensional;
    - the variable [data] of the drawing widget, when it is set, is a list
      of rows of numbers;
    - [print] of an array of labels fits one line (NumPy breaks the line
      after 75 characters and abridges beyond 1000 entries). *)

From Stdlib Require Import ZArith QArith Ascii String.
From stdpp Require Import base decidable option list strings pretty gmap fin_maps vector.

(** ** Python exceptions *)

Inductive exn :=
  | OSError                 (* an OSError that is none of its subclasses below *)
  | FileExistsError
  | FileNotFoundError
  | NotADirectoryError
  | IsADirectoryError
  | PermissionError
  | ValueError
  | IndexError
  | NameError
  | AttributeError
  | KeyboardInterrupt
  | ClientError (msg : string).  (* what the SDK and its HTTP client raise *)

#[global] Instance exn_eq_dec : EqDecision exn.
Proof. solve_decision. Defined.

(** [isinstance(e, OSError)]: the classes an [except OSError] clause catches. *)
Definition is_OSError (e : exn) : bool :=
  match e with
  | OSError | FileExistsError | FileNotFoundError
  | NotADirectoryError | IsADirectoryError | PermissionError => true
  | _ => false
  end.

(** ** Paths and the file system *)

(** A path is the list of its components: ['/tmp/data'] is [["", "tmp",
    "data"]], the relative ['output/x'] is [["output", "x"]]. *)
Definition path := list string.

Fixpoint split_go (sep : ascii) (cur : string) (s : string) : list string :=
  match s with
  | EmptyString => [String.rev cur]
  | String c s' =>
      if Ascii.eqb c sep then String.rev cur :: split_go sep EmptyString s'
      else split_go sep (String c cur) s'
  end.

(** [s.split('/')] *)
Definition split_path (s : string) : path := split_go "/"%char EmptyString s.

(** [os.path.join(a, b)] for a relative, non-empty [b]. *)
Definition path_join (a b : string) : string := a +:+ "/" +:+ b.

Inductive node := Dir | File.

#[global] Instance node_eq_dec : EqDecision node.
Proof. solve_decision. Defined.

Abbreviation filesystem := (gmap path node).

(** [parent p] is [os.path.dirname]; a path of one component has none. *)
Definition parent (p : path) : option path :=
  match p with
  | [] | [_] => None
  | _ => Some (take (length p - 1) p)
  end.

(** Every entry below the top level sits in a directory. *)
Definition fs_wf (fs : filesystem) : Prop :=
  ∀ p n q, fs !! p = Some n → parent p = Some q → fs !! q = Some Dir.

(** [os.mkdir(p)] *)
Definition mkdir (p : path) (fs : filesystem) : exn + filesystem :=
  match fs !! p with
  | Some _ => inl FileExistsError
  | None =>
      match parent p with
      | None => inr (<[p := Dir]> fs)
      | Some q =>
          match fs !! q with
          | Some Dir => inr (<[p := Dir]> fs)
          | Some File => inl NotADirectoryError
          | None => inl FileNotFoundError
          end
      end
  end.

(** The proper, non-empty prefixes of a path, shortest first. *)
Definition ancestors (p : path) : list path :=
  (λ k, take k p) <$> seq 1 (length p - 1).

(** A failure of the operating system (permissions, a full disk, ...) that
    hits a file-system call which would have gone well: the exception that
    the call raises, and the paths at which the call had done its work
    when it failed. *)
Record os_fault := { fault_exn : exn; fault_done : path → bool }.

(** The exception of the fault when it strikes the work at [p]. *)
Definition strikes (fault : option os_fault) (p : path) : option exn :=
  match fault with
  | Some f => if fault_done f p then None else Some (fault_exn f)
  | None => None
  end.

(** The recursion of [os.makedirs] over the ancestors of the leaf, outermost
    first: an ancestor that exists is left alone, a missing one is made.
    What was made before a failure stays. *)
Fixpoint make_ancestors (fault : option os_fault) (ancs : list path)
    (fs : filesystem) : option exn * filesystem :=
  match ancs with
  | [] => (None, fs)
  | a :: rest =>
      match fs !! a with
      | Some _ => make_ancestors fault rest fs
      | None =>
          match mkdir a fs with
          | inl e => (Some e, fs)
          | inr fs' =>
              match strikes fault a with
              | Some e => (Some e, fs)
              | None => make_ancestors fault rest fs'
              end
          end
      end
  end.

(** [os.makedirs(p)] with [exist_ok=False].  A fault strikes the first
    missing ancestor at which the call had not done its work, and the leaf
    at the latest. *)
Definition makedirs_fs (fault : option os_fault) (p : path) (fs : filesystem)
  : (exn + unit) * filesystem :=
  match make_ancestors fault (ancestors p) fs with
  | (Some e, fs') => (inl e, fs')
  | (None, fs') =>
      match mkdir p fs' with
      | inl e => (inl e, fs')
      | inr fs'' =>
          match fault with
          | Some f => (inl (fault_exn f), fs')
          | None => (inr (), fs'')
          end
      end
  end.

(** The end of writing a regular file at [p]: a fault leaves the file
    behind, with part of its contents, if the work at [p] had begun. *)
Definition write_at (fault : option os_fault) (p : path) (fs : filesystem)
  : (exn + unit) * filesystem :=
  match fault with
  | Some f => (inl (fault_exn f), if fault_done f p then <[p := File]> fs else fs)
  | None => (inr (), <[p := File]> fs)
  end.

(** Writing a regular file (what [np.savez] does to its target). *)
Definition write_file (fault : option os_fault) (p : path) (fs : filesystem)
  : (exn + unit) * filesystem :=
  match fs !! p with
  | Some Dir => (inl IsADirectoryError, fs)
  | _ =>
      match parent p with
      | None => write_at fault p fs
      | Some q =>
          match fs !! q with
          | Some Dir => write_at fault p fs
          | Some File => (inl NotADirectoryError, fs)
          | None => (inl FileNotFoundError, fs)
          end
      end
  end.

(** What an [rmtree] that fails leaves of the tree at [root]: the root, and
    every entry at or below which there is an entry it had not removed. *)
Definition left_behind (f : os_fault) (root : path) (fs : filesystem)
    (q : path) : Prop :=
  q = root ∨ map_Exists (λ q' _, q `prefix_of` q' ∧ fault_done f q' = false) fs.

#[global] Instance left_behind_dec f root fs q : Decision (left_behind f root fs q).
Proof. unfold left_behind. apply _. Defined.

(** [shutil.rmtree(root)]: removes [root] and all below it.  It fails when
    [root] is missing or is not a directory, and then removes nothing; a
    fault makes it fail with part of the tree removed. *)
Definition rmtree_fs (fault : option os_fault) (root : path) (fs : filesystem)
  : (exn + unit) * filesystem :=
  match fs !! root with
  | Some Dir =>
      match fault with
      | Some f =>
          (inl (fault_exn f),
           filter (λ kv, ¬ root `prefix_of` kv.1 ∨ left_behind f root fs kv.1) fs)
      | None => (inr (), filter (λ kv, ¬ root `prefix_of` kv.1) fs)
      end
  | Some File => (inl NotADirectoryError, fs)
  | None => (inl FileNotFoundError, fs)
  end.

(** ** Arrays *)

(** A float32 value, as far as comparisons see it. *)
Inductive f32 := NaN | NegInf | Finite (q : Q) | PosInf.

(** IEEE [a <= b]: false as soon as one side is NaN. *)
Definition f32_le (a b : f32) : bool :=
  match a, b with
  | NaN, _ | _, NaN => false
  | NegInf, _ => true
  | _, PosInf => true
  | Finite x, Finite y => Qle_bool x y
  | _, _ => false
  end.

Definition is_nan (a : f32) : bool := match a with NaN => true | _ => false end.

(** A flattened 28x28 image, and a dataset of (image, label) pairs as
    [chainer.datasets.get_mnist] returns it. *)
Definition image := list f32.
Definition dataset := list (image * Z).

(** A two-dimensional array, row by row. *)
Definition array2 := list (list f32).

(** A two-dimensional array with its shape, as [predict] returns it: the
    size of the second axis, and the rows, each of that size.  An array of
    shape (0, 10) and one of shape (0, 0) both have no rows. *)
Record ndarray := { columns : nat; rows : list (vec f32 columns) }.

Definition row_lists (a : ndarray) : list (list f32) := vec_to_list <$> rows a.

(** [2 ** e] *)
Definition pow2 (e : Z) : Q :=
  if (0 <=? e)%Z then inject_Z (2 ^ e) else / inject_Z (2 ^ (- e)).

(** The [e] with [2 ** e <= a < 2 ** (e + 1)], for a positive [a]. *)
Definition ilog2 (a : Q) : Z :=
  let e := (Z.log2 (Qnum a) - Z.log2 (Zpos (Qden a)))%Z in
  if Qle_bool (pow2 e) a then e else (e - 1)%Z.

(** The integer nearest to [x >= 0], the even one of two that are equally
    near. *)
Definition round_half_even (x : Q) : Z :=
  let f := (Qnum x / Zpos (Qden x))%Z in
  match Qcompare (x - inject_Z f)%Q (1 # 2)%Q with
  | Lt => f
  | Gt => (f + 1)%Z
  | Eq => if Z.even f then f else (f + 1)%Z
  end.

(** The conversion of a number to float32 (IEEE binary32, round to nearest,
    ties to even): 24 bits of precision, exponents from -126 to 127,
    infinity from [2 ** 128 - 2 ** 103] on. *)
Definition to_float32 (q : Q) : f32 :=
  if Qeq_bool q 0 then Finite 0 else
  let a := (if Qle_bool 0 q then q else - q)%Q in
  let e := Z.max (ilog2 a) (-126) in
  let quantum := pow2 (e - 23) in
  let v := Qred (inject_Z (round_half_even (a / quantum)%Q) * quantum)%Q in
  if Qle_bool (pow2 128) v then (if Qle_bool 0 q then PosInf else NegInf)
  else Finite (if Qle_bool 0 q then v else (- v)%Q).

(** [np.array(data, dtype=np.float32)] of a list of rows of numbers:
    [ValueError] when the rows differ in length. *)
Definition np_array_float32 (data : list (list Q)) : exn + array2 :=
  let image : list (list f32) := (λ r : list Q, to_float32 <$> r) <$> data in
  match data with
  | [] => inr image
  | row :: _ =>
      if bool_decide (Forall (λ r, length r = length row) data)
      then inr image
      else inl ValueError
  end.

(** ** External calls, their log, and the environment *)

(** The calls the notebook makes outside its own code, with the arguments
    that identify them. *)
Inductive call :=
  | Session                                   (* sagemaker.Session() *)
  | GetExecutionRole                          (* get_execution_role() *)
  | Shell (cmd : string)                      (* !cmd *)
  | GetMnist                                  (* chainer.datasets.get_mnist() *)
  | Makedirs (name : string)                  (* os.makedirs(name) *)
  | Savez (file : string)                     (* np.savez(file, ...) *)
  | UploadData (path key_prefix : string)     (* sagemaker_session.upload_data *)
  | Rmtree (root : string)                    (* shutil.rmtree(root) *)
  | SubprocessCall (cmd : string)             (* subprocess.call(cmd) *)
  | PrintLine (text : string)                     (* print(text) *)
  | Chainer (train_instance_type : string)    (* Chainer(...) *)
  | Fit (train test : string)                 (* chainer_estimator.fit *)
  | DescribeTrainingJob (name : string)       (* describe_training_job *)
  | ImageNew (filename : string)              (* IPython.display.Image *)
  | Display                                   (* IPython.display.display *)
  | Deploy (instance_type : string)           (* chainer_estimator.deploy *)
  | RandomSample (population : Z) (k : nat)   (* random.sample(range(..), k) *)
  | Subplot (index : nat)                     (* plt.subplot(1, n, index) *)
  | Imshow                                    (* plt.imshow *)
  | Title                                     (* plt.title *)
  | AxisOff                                   (* plt.axis('off') *)
  | Predict                                   (* predictor.predict *)
  | OpenRead (file : string)                  (* open(file).read() *)
  | Html                                      (* IPython.display.HTML *)
  | DeleteEndpoint.                           (* chainer_estimator.delete_endpoint *)

#[global] Instance call_eq_dec : EqDecision call.
Proof. solve_decision. Defined.

(** One entry of the log: the call, and the exception it raised if any. *)
Record event := Ev { ev_call : call; ev_raised : option exn }.

#[global] Instance event_eq_dec : EqDecision event.
Proof. solve_decision. Defined.

Definition history := list event.

(** The [sagemaker.Session] object, as far as the notebook reads it. *)
Record session := { region_name : string }.

(** The [Chainer] estimator object.  [fit] stores the job it started. *)
Record estimator := {
  entry_point : string;
  role : string;
  train_instance_count : nat;
  train_instance_type : string;
  hyperparameters : list (string * Z);
  latest_training_job : option string
}.

(** What is outside the notebook.  Every outcome may depend on the calls
    made before ([history]); [inl e] is the exception [e] being raised. *)
Record env := {
  env_Session : history → exn + session;
  env_get_execution_role : history → exn + string;
  (** [!cmd] never raises: IPython drops the exit status. *)
  env_shell : history → string → filesystem → filesystem;
  env_get_mnist : history → exn + dataset * dataset;
  (** A failure of the operating system that hits a file-system call
      ([os.makedirs], [np.savez], [shutil.rmtree]): the exception, and the
      paths at which the call had done its work when it failed. *)
  env_os_fault : history → call → option exn;
  env_os_progress : history → call → path → bool;
  env_upload_data : history → string → string → exn + string;
  env_subprocess_call : history → string → exn + Z;
  env_print : history → string → option exn;
  env_Chainer : history → estimator → option exn;
  (** [fit] returns the name of the training job it ran. *)
  env_fit : history → estimator → string → string → exn + string;
  (** [describe_training_job], reduced to
      [desc['ModelArtifacts']['S3ModelArtifacts']]. *)
  env_describe_training_job : history → string → exn + string;
  env_Image : history → string → option exn;
  env_display : history → option exn;
  env_deploy : history → estimator → nat → string → option exn;
  (** The random generator: the raw value of the [i]-th draw. *)
  env_random : history → nat → nat;
  (** How many redraws of the rejection loop in [random.sample] the user
      sits through before interrupting the kernel. *)
  env_patience : nat;
  env_plt : history → call → option exn;
  env_predict : history → array2 → exn + ndarray;
  env_open_read : history → string → exn + string;
  env_HTML : history → string → option exn;
  (** The variable [data] that the drawing widget of input.html sets;
      [None] when nothing was drawn. *)
  env_data : option (list (list Q));
  env_delete_endpoint : history → option exn
}.

(** ** The monad of notebook code *)

Record state := { fs : filesystem; log : history }.

Definition M (A : Type) : Type := state → (exn + A) * state.

#[global] Instance M_ret : MRet M := λ A a s, (inr a, s).

#[global] Instance M_bind : MBind M := λ A B k m s,
  match m s with
  | (inl e, s') => (inl e, s')
  | (inr a, s') => k a s'
  end.

Definition raise {A} (e : exn) : M A := λ s, (inl e, s).

(** [try: body finally: cleanup].  The cleanup always runs; when it raises,
    its exception replaces the outcome of the body. *)
Definition try_finally {A} (body : M A) (cleanup : M unit) : M A :=
  λ s, match body s with
       | (r, s') =>
           match cleanup s' with
           | (inl e, s'') => (inl e, s'')
           | (inr _, s'') => (r, s'')
           end
       end.

(** [try: body except OSError: pass] *)
Definition try_except_OSError_pass (body : M unit) : M unit :=
  λ s, match body s with
       | (inl e, s') => if is_OSError e then (inr (), s') else (inl e, s')
       | (inr _, s') => (inr (), s')
       end.

(** [for x in l: body(x)] *)
Fixpoint for_each {A} (l : list A) (body : A → M unit) : M unit :=
  match l with
  | [] => mret ()
  | x :: rest => body x;; for_each rest body
  end.

Definition raised {A} (r : exn + A) : option exn :=
  match r with inl e => Some e | inr _ => None end.

(** An external call: its outcome is computed from the history and the file
    system, and it is logged. *)
Definition ext {A} (c : call)
    (f : history → filesystem → (exn + A) * filesystem) : M A :=
  λ s, match f (log s) (fs s) with
       | (r, fs') => (r, {| fs := fs'; log := log s ++ [Ev c (raised r)] |})
       end.

(** An external call that leaves the local file system alone. *)
Definition ext_pure {A} (c : call) (f : history → exn + A) : M A :=
  ext c (λ h fs, (f h, fs)).

Definition unit_result (o : option exn) : exn + unit :=
  match o with Some e => inl e | None => inr () end.

(** The fault, if any, that hits the file-system call [c]. *)
Definition the_fault (W : env) (h : history) (c : call) : option os_fault :=
  match env_os_fault W h c with
  | Some e => Some {| fault_exn := e; fault_done := env_os_progress W h c |}
  | None => None
  end.

(** A file-system call: the model of the file system decides what it does,
    given the fault that the environment may hit it with. *)
Definition ext_os (W : env) (c : call)
    (op : option os_fault → filesystem → (exn + unit) * filesystem) : M unit :=
  ext c (λ h fs, op (the_fault W h c) fs).

(** ** Library functions the cells use *)

(** [s.startswith(old)] *)
Fixpoint starts_with (old s : string) : bool :=
  match old with
  | EmptyString => true
  | String a old' =>
      match s with
      | EmptyString => false
      | String b s' => Ascii.eqb a b && starts_with old' s'
      end
  end.

(** [s.replace(old, new)] for a non-empty [old], as CPython scans: left to
    right, an occurrence of [old] is replaced and the scan resumes behind
    it.  [skip] counts the characters of a replaced occurrence that are
    still to be passed over. *)
Fixpoint replace_go (old new : string) (skip : nat) (s : string) : string :=
  match s with
  | EmptyString => EmptyString
  | String c s' =>
      match skip with
      | S k => replace_go old new k s'
      | O =>
          if starts_with old s
          then new +:+ replace_go old new (String.length old - 1) s'
          else String c (replace_go old new 0 s')
      end
  end.

Definition str_replace (old new s : string) : string := replace_go old new 0 s.


(** [a[indices]] with a list of indices: IndexError when one is out of
    bounds. *)
Fixpoint take_indices {A} (a : list A) (indices : list nat) : exn + list A :=
  match indices with
  | [] => inr []
  | i :: rest =>
      match a !! i with
      | None => inl IndexError
      | Some x =>
          match take_indices a rest with
          | inl e => inl e
          | inr xs => inr (x :: xs)
          end
      end
  end.

(** [range(z)] of a Python integer [z]: empty when [z <= 0]. *)
Definition py_range (z : Z) : list nat := seq 0 (Z.to_nat z).

(** [random.sample(population, k)] of CPython 3.6 for [k <= 5] (the set-size
    threshold is then 21).  [rnd d] is the raw value of the [d]-th draw of
    the generator and [randbelow(m)] is that value modulo [m]. *)

(** The branch for a small population: a partial shuffle of a copy. *)
Fixpoint sample_pool (rnd : nat → nat) (d : nat) (pool : list nat)
    (live k : nat) : exn + list nat :=
  match k with
  | O => inr []
  | S k' =>
      let j := rnd d `mod` live in
      match pool !! j, pool !! (live - 1) with
      | Some x, Some y =>
          match sample_pool rnd (S d) (<[j := y]> pool) (live - 1) k' with
          | inl e => inl e
          | inr xs => inr (x :: xs)
          end
      | _, _ => inl IndexError
      end
  end.

(** [while j in selected: j = randbelow(n)].  The loop ends when a fresh
    index is drawn; a loop that outlasts [patience] redraws is interrupted. *)
Fixpoint redraw (rnd : nat → nat) (n : nat) (selected : list nat)
    (patience d j : nat) {struct patience} : option (nat * nat) :=
  if bool_decide (j ∈ selected) then
    match patience with
    | O => None
    | S p => redraw rnd n selected p (S d) (rnd d `mod` n)
    end
  else Some (j, d).

(** The branch for a large population: draw indices, rejecting repeats. *)
Fixpoint sample_set (rnd : nat → nat) (patience : nat) (population : list nat)
    (selected : list nat) (d k : nat) : exn + list nat :=
  match k with
  | O => inr []
  | S k' =>
      let n := length population in
      match redraw rnd n selected patience (S d) (rnd d `mod` n) with
      | None => inl KeyboardInterrupt
      | Some (j, d') =>
          match population !! j with
          | None => inl IndexError
          | Some x =>
              match sample_set rnd patience population (j :: selected) d' k' with
              | inl e => inl e
              | inr xs => inr (x :: xs)
              end
          end
      end
  end.

Definition random_sample (rnd : nat → nat) (patience : nat)
    (population : list nat) (k : nat) : exn + list nat :=
  let n := length population in
  if bool_decide (k ≤ n) then
    if bool_decide (n ≤ 21) then sample_pool rnd 0 population n k
    else sample_set rnd patience population [] 0 k
  else inl ValueError.

(** NumPy's [argmax] of a one-dimensional float array: the first index of
    the largest entry, a NaN counting as largest. *)
Fixpoint argmax_go (mp : f32) (max_ind i : nat) (rest : list f32) : nat :=
  match rest with
  | [] => max_ind
  | x :: rest' =>
      if f32_le x mp then argmax_go mp max_ind (S i) rest'
      else if is_nan x then i
      else argmax_go x i (S i) rest'
  end.

Definition argmax (row : list f32) : exn + nat :=
  match row with
  | [] => inl ValueError
  | x :: rest => inr (if is_nan x then 0 else argmax_go x 0 1 rest)
  end.

(** The [argmax] of every row. *)
Fixpoint argmax_rows (a : list (list f32)) : exn + list nat :=
  match a with
  | [] => inr []
  | row :: rows =>
      match argmax row with
      | inl e => inl e
      | inr i =>
          match argmax_rows rows with
          | inl e => inl e
          | inr rest => inr (i :: rest)
          end
      end
  end.

(** [a.argmax(axis=1)]: [ValueError] when the second axis is empty, also
    for an array without rows. *)
Definition argmax_axis1 (a : ndarray) : exn + list nat :=
  if bool_decide (columns a = 0) then inl ValueError
  else argmax_rows (row_lists a).

(** [a[i]] *)
Definition getitem {A} (a : list A) (i : nat) : exn + A :=
  match a !! i with Some x => inr x | None => inl IndexError end.

(** [img.reshape(28, 28)]: only the check on the size matters here. *)
Definition reshape_28_28 (img : image) : exn + image :=
  if bool_decide (length img = 784) then inr img else inl ValueError.

(** [s.rjust(w)] *)
Definition rjust (w : nat) (s : string) : string :=
  string_of_list_ascii (replicate (w - String.length s) " "%char) +:+ s.

(** [str] of an array of integers, as [format] prints it: the entries are
    padded to the width of the widest. *)
Definition show_labels (l : list nat) : string :=
  let texts := pretty <$> l in
  let w := foldr Nat.max 0 (String.length <$> texts) in
  "[" +:+ String.concat " " (rjust w <$> texts) +:+ "]".

(** ** The cells *)

Definition lift {A} (r : exn + A) : M A := λ s, (r, s).

(** The variables that the staging cell leaves behind. *)
Record staged := {
  train_images : list image;
  train_labels : list Z;
  test_images : list image;
  test_labels : list Z;
  train_input : string;
  test_input : string
}.

(** [instance_type = 'local'], overwritten when [nvidia-smi] exits with 0. *)
Definition select_instance_type (nvidia_smi : Z) : string :=
  let instance_type := "local" in
  if bool_decide (nvidia_smi = 0%Z) then "local_gpu" else instance_type.

Section Notebook.
Variable W : env.

Definition shell (cmd : string) : M unit :=
  ext (Shell cmd) (λ h fs, (inr (), env_shell W h cmd fs)).

Definition makedirs (name : string) : M unit :=
  ext_os W (Makedirs name) (λ fault, makedirs_fs fault (split_path name)).

Definition savez (file : string) : M unit :=
  ext_os W (Savez file) (λ fault, write_file fault (split_path file)).

Definition upload_data (path key_prefix : string) : M string :=
  ext_pure (UploadData path key_prefix)
    (λ h, env_upload_data W h path key_prefix).

Definition rmtree (root : string) : M unit :=
  ext_os W (Rmtree root) (λ fault, rmtree_fs fault (split_path root)).

Definition print (text : string) : M unit :=
  ext_pure (PrintLine text) (λ h, unit_result (env_print W h text)).

Definition plt (c : call) : M unit :=
  ext_pure c (λ h, unit_result (env_plt W h c)).

Definition predict (a : array2) : M ndarray :=
  ext_pure Predict (λ h, env_predict W h a).

(** Cell 1: the session and the execution role. *)
Definition cell1 : M (session * string) :=
  sagemaker_session ← ext_pure Session (env_Session W);
  role ← ext_pure GetExecutionRole (env_get_execution_role W);
  mret (sagemaker_session, role).

(** Cell 3 *)
Definition cell3 : M unit := shell "/bin/bash ./setup.sh".

(** Cell 5: download MNIST. *)
Definition cell5 : M (dataset * dataset) :=
  ext_pure GetMnist (env_get_mnist W).

(** The body of the [try] of cell 7. *)
Definition cell7_body : M (string * string) :=
  makedirs "/tmp/data/train";;
  makedirs "/tmp/data/test";;
  savez "/tmp/data/train/train.npz";;
  savez "/tmp/data/test/test.npz";;
  train_input ← upload_data (path_join "/tmp/data" "train")
                            "notebook/chainer/mnist";
  test_input ← upload_data (path_join "/tmp/data" "test")
                           "notebook/chainer/mnist";
  mret (train_input, test_input).

(** Cell 7: parse, save and upload the data. *)
Definition cell7 (train test : dataset) : M staged :=
  let train_images := fst <$> train in
  let train_labels := snd <$> train in
  let test_images := fst <$> test in
  let test_labels := snd <$> test in
  inputs ← try_finally cell7_body (rmtree "/tmp/data");
  mret {| train_images := train_images; train_labels := train_labels;
          test_images := test_images; test_labels := test_labels;
          train_input := inputs.1; test_input := inputs.2 |}.

(** Cell 9 *)
Definition cell9 : M unit := shell "pygmentize 'chainer_mnist_single_machine.py'".

(** Cell 11: choose the instance type and construct the estimator. *)
Definition cell11 (role : string) : M (string * estimator) :=
  nvidia_smi ← ext_pure (SubprocessCall "nvidia-smi")
                 (λ h, env_subprocess_call W h "nvidia-smi");
  let instance_type := select_instance_type nvidia_smi in
  print ("Instance type = " +:+ instance_type);;
  let chainer_estimator :=
    {| entry_point := "chainer_mnist_single_machine.py";
       role := role;
       train_instance_count := 1;
       train_instance_type := instance_type;
       hyperparameters := [("epochs", 3%Z); ("batch_size", 128%Z)];
       latest_training_job := None |} in
  ext_pure (Chainer (train_instance_type chainer_estimator))
    (λ h, unit_result (env_Chainer W h chainer_estimator));;
  mret (instance_type, chainer_estimator).

(** Cell 13: train.  [fit] blocks until the job is over and records it in
    the estimator. *)
Definition cell13 (chainer_estimator : estimator) (st : staged) : M estimator :=
  job ← ext_pure (Fit (train_input st) (test_input st))
          (λ h, env_fit W h chainer_estimator (train_input st) (test_input st));
  mret {| entry_point := entry_point chainer_estimator;
          role := role chainer_estimator;
          train_instance_count := train_instance_count chainer_estimator;
          train_instance_type := train_instance_type chainer_estimator;
          hyperparameters := hyperparameters chainer_estimator;
          latest_training_job := Some job |}.

(** [desc['ModelArtifacts']['S3ModelArtifacts'].replace('model', 'output')] *)
Definition output_data_of (S3ModelArtifacts : string) : string :=
  str_replace "model" "output" S3ModelArtifacts.

(** Cell 15: download and extract the output artifacts. *)
Definition cell15 (sagemaker_session : session) (chainer_estimator : estimator)
  : M string :=
  try_except_OSError_pass (makedirs "output/single_machine_mnist");;
  chainer_training_job ←
    match latest_training_job chainer_estimator with
    | Some name => mret name
    | None => raise AttributeError
    end;
  S3ModelArtifacts ←
    ext_pure (DescribeTrainingJob chainer_training_job)
      (λ h, env_describe_training_job W h chainer_training_job);
  let output_data := output_data_of S3ModelArtifacts in
  shell ("aws --region " +:+ region_name sagemaker_session +:+ " s3 cp "
         +:+ output_data +:+ " output/single_machine_mnist/output.tar");;
  shell "tar -xzvf output/single_machine_mnist/output.tar -C output/single_machine_mnist";;
  mret output_data.

(** Cell 17: show the accuracy and loss plots. *)
Definition cell17 : M unit :=
  ext_pure (ImageNew "output/single_machine_mnist/accuracy.png")
    (λ h, unit_result (env_Image W h "output/single_machine_mnist/accuracy.png"));;
  ext_pure (ImageNew "output/single_machine_mnist/loss.png")
    (λ h, unit_result (env_Image W h "output/single_machine_mnist/loss.png"));;
  ext_pure Display (λ h, unit_result (env_display W h)).

(** Cell 19: deploy the model. *)
Definition cell19 (chainer_estimator : estimator) (instance_type : string)
  : M unit :=
  ext_pure (Deploy instance_type)
    (λ h, unit_result (env_deploy W h chainer_estimator 1 instance_type)).

Definition num_samples : nat := 5.

(** [random.sample(range(test_images.shape[0] - 1), num_samples)] *)
Definition sample_indices (test_images : list image) : M (list nat) :=
  let population := (Z.of_nat (length test_images) - 1)%Z in
  ext_pure (RandomSample population num_samples)
    (λ h, random_sample (env_random W h) (env_patience W)
            (py_range population) num_samples).

(** Cell 21: pick random test images and plot them. *)
Definition cell21 (st : staged) : M (list image * list Z) :=
  indices ← sample_indices (test_images st);
  images ← lift (take_indices (test_images st) indices);
  labels ← lift (take_indices (test_labels st) indices);
  for_each (seq 0 num_samples) (λ i,
    plt (Subplot (i + 1));;
    img ← lift (getitem images i);
    pixels ← lift (reshape_28_28 img);
    plt Imshow;;
    label ← lift (getitem labels i);
    plt Title;;
    plt AxisOff);;
  mret (images, labels).

(** Cell 23: predict the sampled images. *)
Definition cell23 (images : list image) : M (list nat) :=
  prediction ← predict images;
  predicted_label ← lift (argmax_axis1 prediction);
  print ("The predicted labels are: " +:+ show_labels predicted_label);;
  mret predicted_label.

(** Cell 25: show the drawing widget. *)
Definition cell25 : M unit :=
  html ← ext_pure (OpenRead "input.html") (λ h, env_open_read W h "input.html");
  ext_pure Html (λ h, unit_result (env_HTML W h html)).

(** Cell 27: predict the digit that was drawn. *)
Definition cell27 : M nat :=
  data ← match env_data W with
         | Some data => mret data
         | None => raise NameError
         end;
  image ← lift (np_array_float32 data);
  prediction ← predict image;
  labels ← lift (argmax_axis1 prediction);
  predicted_label ← lift (getitem labels 0);
  print ("What you wrote is: " +:+ pretty predicted_label);;
  mret predicted_label.

(** Cell 29: delete the endpoint. *)
Definition cell29 : M unit :=
  ext_pure DeleteEndpoint (λ h, unit_result (env_delete_endpoint W h)).

(** The notebook, its cells run from top to bottom.  An exception ends the
    run.  The result is the two predictions. *)
Definition notebook : M (list nat * nat) :=
  '(sagemaker_session, role) ← cell1;
  cell3;;
  '(train, test) ← cell5;
  st ← cell7 train test;
  cell9;;
  '(instance_type, chainer_estimator) ← cell11 role;
  chainer_estimator ← cell13 chainer_estimator st;
  cell15 sagemaker_session chainer_estimator;;
  cell17;;
  cell19 chainer_estimator instance_type;;
  '(images, labels) ← cell21 st;
  predicted_labels ← cell23 images;
  cell25;;
  predicted_label ← cell27;
  cell29;;
  mret (predicted_labels, predicted_label).

(** A run on a fresh kernel, over the file system [fs0]. *)
Definition run (fs0 : filesystem) : (exn + list nat * nat) * state :=
  notebook {| fs := fs0; log := [] |}.
End Notebook.

(** ** A concrete environment, for running the notebook *)

(** A tiny stand-in for MNIST: [n] blank images labelled 0. *)
Definition blank_image : image := replicate 784 (Finite 0).
Definition blank_dataset (n : nat) : dataset := replicate n (blank_image, 0%Z).

(** A classifier that scores the digit 7 highest for every image. *)
Definition always_seven (a : array2) : ndarray :=
  {| columns := 10;
     rows := (λ _, fun_to_vec (λ d : fin 10,
                     Finite (if bool_decide (fin_to_nat d = 7) then 1 else 0)))
             <$> a |}.

(** The environment in which [nvidia-smi] exits with [nvidia_smi], the test
    set has [n_test] images, the call [c] raises [e] when [fault c = Some e]
    (a file-system call before it has done any of its work), and everything
    else goes well. *)
Definition demo_env (nvidia_smi : Z) (n_test : nat) (fault : call → option exn)
  : env :=
  let outcome {A} (c : call) (a : A) : exn + A :=
    match fault c with Some e => inl e | None => inr a end in
  {| env_Session := λ _, outcome Session {| region_name := "us-west-2" |};
     env_get_execution_role := λ _, outcome GetExecutionRole "arn:aws:iam::role/demo";
     env_shell := λ _ _ fs, fs;
     env_get_mnist := λ _, outcome GetMnist (blank_dataset 3, blank_dataset n_test);
     env_os_fault := λ _ c, fault c;
     env_os_progress := λ _ _ _, false;
     env_upload_data := λ _ path key_prefix,
       outcome (UploadData path key_prefix) ("s3://bucket/" +:+ key_prefix);
     env_subprocess_call := λ _ cmd, outcome (SubprocessCall cmd) nvidia_smi;
     env_print := λ _ text, fault (PrintLine text);
     env_Chainer := λ _ est, fault (Chainer (train_instance_type est));
     env_fit := λ _ _ train test, outcome (Fit train test) "job-1";
     env_describe_training_job := λ _ name,
       outcome (DescribeTrainingJob name) "s3://model-bucket/job-1/output/model.tar.gz";
     env_Image := λ _ file, fault (ImageNew file);
     env_display := λ _, fault Display;
     env_deploy := λ _ _ _ instance_type, fault (Deploy instance_type);
     env_random := λ _ d, 3 * d + 1;
     env_patience := 10;
     env_plt := λ _ c, fault c;
     env_predict := λ _ a, outcome Predict (always_seven a);
     env_open_read := λ _ file, outcome (OpenRead file) "<canvas></canvas>";
     env_HTML := λ _ _, fault Html;
     env_data := Some [replicate 784 0%Q];
     env_delete_endpoint := λ _, fault DeleteEndpoint |}.

Definition no_fault : call → option exn := λ _, None.

(** The fault that makes exactly the call [c] raise [e]. *)
Definition fault_at (c : call) (e : exn) : call → option exn :=
  λ c', if bool_decide (c' = c) then Some e else None.

Definition calls (t : history) : list call := ev_call <$> t.
Definition trace {A} (r : (exn + A) * state) : history := log r.2.
Definition outcome {A} (r : (exn + A) * state) : exn + A := r.1.

(** ** Reading the log *)

(** Kinds of calls. *)
Definition is_GetMnist (c : call) : bool := match c with GetMnist => true | _ => false end.
Definition is_Savez (c : call) : bool := match c with Savez _ => true | _ => false end.
Definition is_UploadData (c : call) : bool := match c with UploadData _ _ => true | _ => false end.
Definition is_Chainer (c : call) : bool := match c with Chainer _ => true | _ => false end.
Definition is_Fit (c : call) : bool := match c with Fit _ _ => true | _ => false end.
Definition is_DescribeTrainingJob (c : call) : bool :=
  match c with DescribeTrainingJob _ => true | _ => false end.
Definition is_Deploy (c : call) : bool := match c with Deploy _ => true | _ => false end.
Definition is_Predict (c : call) : bool := match c with Predict => true | _ => false end.
Definition is_DeleteEndpoint (c : call) : bool :=
  match c with DeleteEndpoint => true | _ => false end.

(** Downloading and unpacking the artifacts (the two shell commands of
    cell 15) and showing images. *)
Definition is_download_or_display (c : call) : bool :=
  match c with
  | Shell cmd => starts_with "aws " cmd || starts_with "tar " cmd
  | ImageNew _ | Display | Imshow => true
  | _ => false
  end.

(** The event is a call of kind [K]. *)
Definition called (K : call → bool) (e : event) : bool := K (ev_call e).

(** The event is a call of kind [K] that returned. *)
Definition returned (K : call → bool) (e : event) : bool :=
  K (ev_call e) && bool_decide (ev_raised e = None).

(** In [t], every event that satisfies [Q] has an event that satisfies [P]
    before it. *)
Definition comes_after (P Q : event → bool) (t : history) : Prop :=
  ∀ i e, t !! i = Some e → Q e = true →
    ∃ j e', j < i ∧ t !! j = Some e' ∧ P e' = true.

(** In [t], an event that satisfies [Q] can only be the last one. *)
Definition only_last (Q : event → bool) (t : history) : Prop :=
  ∀ i e, t !! i = Some e → Q e = true → S i = length t.

Fixpoint comes_after_b (P Q : event → bool) (seen : bool) (t : history) : bool :=
  match t with
  | [] => true
  | e :: t' => (negb (Q e) || seen) && comes_after_b P Q (seen || P e) t'
  end.

Fixpoint only_last_b (Q : event → bool) (t : history) : bool :=
  match t with
  | [] => true
  | e :: t' => (negb (Q e) || bool_decide (t' = [])) && only_last_b Q t'
  end.

(** ** Reasoning about runs: weakest preconditions *)

(** [wp m Φ s]: running [m] from [s] ends with an outcome and a state that
    satisfy [Φ]. *)
Definition wp {A} (m : M A) (Φ : exn + A → state → Prop) (s : state) : Prop :=
  Φ (m s).1 (m s).2.

(** ** Invariants of the file system *)

(** What a file-system call may do to the entries: directories stay, and
    regular files appear only at [written]. *)
Definition extends (written : list path) (fs fs' : filesystem) : Prop :=
  (∀ q, fs !! q = Some Dir → fs' !! q = Some Dir) ∧
  (∀ q, fs' !! q = Some File → fs !! q = Some File ∨ q ∈ written).

(** ** Cell 7: staging *)

(** ['/tmp/data'] *)
Definition tmp_data : path := split_path "/tmp/data".




(** ** [argmax] *)

(** [i] is what [argmax] answers for [row]: the first NaN if there is one,
    and otherwise the first index of the largest entry. *)
Definition is_argmax (row : list f32) (i : nat) : Prop :=
  ∃ m, row !! i = Some m ∧
    if existsb is_nan row
    then is_nan m = true ∧
         ∀ j x, j < i → row !! j = Some x → is_nan x = false
    else (∀ x, x ∈ row → f32_le x m = true) ∧
         ∀ j x, j < i → row !! j = Some x → f32_le m x = false.

(** ** Exceptions of the service calls *)


(** [P c e rest] holds of every call [c] in [t] that raised an exception
    [e], [rest] being what was logged after it. *)
Fixpoint all_raised (P : call → exn → history → Prop) (t : history) : Prop :=
  match t with
  | [] => True
  | ev :: t' =>
      match ev_raised ev with
      | Some e => P (ev_call ev) e t'
      | None => True
      end ∧ all_raised P t'
  end.

(** After the event, at most the cleanup of cell 7 ran. *)
Definition only_cleanup (rest : history) : Prop :=
  calls rest = [] ∨ calls rest = [Rmtree "/tmp/data"].



(** ** The order of the calls *)

Definition is_staging (c : call) : bool := is_Savez c || is_UploadData c.

Definition count (P : event → bool) (t : history) : nat :=
  length (List.filter P t).

Definition order_b (t : history) : bool :=
  comes_after_b (returned is_GetMnist) (called is_staging) false t
  && comes_after_b (returned is_Chainer) (called is_Fit) false t
  && comes_after_b (returned is_Fit) (called is_download_or_display) false t
  && comes_after_b (returned is_Fit) (called is_Deploy) false t
  && comes_after_b (returned is_Deploy) (called is_Predict) false t
  && only_last_b (called is_DeleteEndpoint) t
  && implb (existsb (called is_DeleteEndpoint) t)
           (count (returned is_Predict) t =? 2).

(** ** Exception suppression *)

(** The one exception that the notebook swallows: an [OSError] of
    [os.makedirs('output/single_machine_mnist')] in cell 15. *)
Definition suppressed (c : call) (e : exn) : Prop :=
  c = Makedirs "output/single_machine_mnist" ∧ is_OSError e = true.

Definition suppressed_or_fatal {A} (r : exn + A) (c : call) (e : exn)
    (rest : history) : Prop :=
  (suppressed c e ∧
   ∃ ev rest', rest = ev :: rest' ∧ is_DescribeTrainingJob (ev_call ev) = true)
  ∨ (¬ suppressed c e ∧ (∃ e', r = inl e') ∧ only_cleanup rest).

(** ** The shape of a run *)




(** ** Single cells *)

(** The events that running [m] from [s] adds to the log. *)
Definition emitted {A} (m : M A) (s : state) : history :=
  drop (length (log s)) (log (m s).2).

(** The calls of cell 7, in order. *)
Definition staging_calls : list call :=
  [Makedirs "/tmp/data/train"; Makedirs "/tmp/data/test";
   Savez "/tmp/data/train/train.npz"; Savez "/tmp/data/test/test.npz";
   UploadData "/tmp/data/train" "notebook/chainer/mnist";
   UploadData "/tmp/data/test" "notebook/chainer/mnist";
   Rmtree "/tmp/data"].

Definition demo_state : state := {| fs := ∅; log := [] |}.

(** [os.makedirs('output/single_machine_mnist')] is denied permission. *)
Definition env_output_dir_denied : env :=
  demo_env 0 7 (fault_at (Makedirs "output/single_machine_mnist") PermissionError).

(** The second [upload_data] of cell 7 fails. *)
Definition env_upload_fails : env :=
  demo_env 0 7 (fault_at (UploadData "/tmp/data/test" "notebook/chainer/mnist")
                         (ClientError "throttled")).

(** ** More of cell 7: the file system *)



(** The environment lets the file-system calls through. *)
Definition no_os_fault (W : env) : Prop := ∀ h c, env_os_fault W h c = None.

(** [upload_data] always returns. *)
Definition uploads_return (W : env) : Prop :=
  ∀ h p k, ∃ uri, env_upload_data W h p k = inr uri.

(** The directories and the archives of cell 7. *)
Definition tmp_data_train : path := split_path "/tmp/data/train".
Definition tmp_data_test : path := split_path "/tmp/data/test".
Definition train_npz : path := split_path "/tmp/data/train/train.npz".
Definition test_npz : path := split_path "/tmp/data/test/test.npz".

(** The file system with the two directories of cell 7 made. *)
Definition with_dirs (fs0 : filesystem) : filesystem :=
  <[tmp_data_test := Dir]> (<[tmp_data_train := Dir]> (<[tmp_data := Dir]> fs0)).

(** The file system with the two archives of cell 7 written. *)
Definition with_staged_files (fs0 : filesystem) : filesystem :=
  <[test_npz := File]> (<[train_npz := File]> (with_dirs fs0)).

(** ** Where the arguments come from *)

(** [P pre c] holds of every call [c] in [t], [pre] being what was logged
    before it ([acc] is the log before [t]). *)
Fixpoint all_calls (P : history → call → Prop) (acc t : history) : Prop :=
  match t with
  | [] => True
  | ev :: t' => P acc (ev_call ev) ∧ all_calls P (acc ++ [ev]) t'
  end.

(** Where the arguments of the service calls come from. *)
Definition data_flow (W : env) (pre : history) (c : call) : Prop :=
  match c with
  | Fit a b =>
      ∃ h rest,
        pre = h ++ Ev (UploadData "/tmp/data/train" "notebook/chainer/mnist") None
                :: Ev (UploadData "/tmp/data/test" "notebook/chainer/mnist") None
                :: rest ∧
        env_upload_data W h "/tmp/data/train" "notebook/chainer/mnist" = inr a ∧
        env_upload_data W
          (h ++ [Ev (UploadData "/tmp/data/train" "notebook/chainer/mnist") None])
          "/tmp/data/test" "notebook/chainer/mnist" = inr b
  | DescribeTrainingJob name =>
      ∃ h est a b rest,
        pre = h ++ Ev (Fit a b) None :: rest ∧ env_fit W h est a b = inr name
  | Deploy instance_type =>
      Ev (PrintLine ("Instance type = " +:+ instance_type)) None ∈ pre ∧
      Ev (Chainer instance_type) None ∈ pre
  | _ => True
  end.

(** ** How cells fail *)

(** The run of the cell ended in an exception that one of its calls
    raised. *)
Definition raised_by_a_call {A} (m : M A) (s : state) (e : exn) : Prop :=
  ∃ pre c, emitted m s = pre ++ [Ev c (Some e)].

(** The pyplot calls of cell 21, one group per sampled image. *)
Definition plot_calls : list call :=
  i ← seq 0 num_samples; [Subplot (i + 1); Imshow; Title; AxisOff].

(** What cell 7 leaves behind for a test set of [n] blank images. *)
Definition demo_staged (n : nat) : staged :=
  {| train_images := fst <$> blank_dataset 3;
     train_labels := snd <$> blank_dataset 3;
     test_images := fst <$> blank_dataset n;
     test_labels := snd <$> blank_dataset n;
     train_input := "s3://bucket/notebook/chainer/mnist";
     test_input := "s3://bucket/notebook/chainer/mnist" |}.

(** A test set with an image of 3 pixels: [reshape] raises. *)
Definition staged_with_a_short_image : staged :=
  {| train_images := []; train_labels := [];
     test_images := replicate 7 [Finite 0; Finite 0; Finite 0];
     test_labels := replicate 7 0%Z;
     train_input := ""; test_input := "" |}.

(** [W] with another endpoint behind [predict]. *)
Definition with_predict (W : env) (f : history → array2 → exn + ndarray) : env :=
  {| env_Session := env_Session W;
     env_get_execution_role := env_get_execution_role W;
     env_shell := env_shell W;
     env_get_mnist := env_get_mnist W;
     env_os_fault := env_os_fault W;
     env_os_progress := env_os_progress W;
     env_upload_data := env_upload_data W;
     env_subprocess_call := env_subprocess_call W;
     env_print := env_print W;
     env_Chainer := env_Chainer W;
     env_fit := env_fit W;
     env_describe_training_job := env_describe_training_job W;
     env_Image := env_Image W;
     env_display := env_display W;
     env_deploy := env_deploy W;
     env_random := env_random W;
     env_patience := env_patience W;
     env_plt := env_plt W;
     env_predict := f;
     env_open_read := env_open_read W;
     env_HTML := env_HTML W;
     env_data := env_data W;
     env_delete_endpoint := env_delete_endpoint W |}.

(** The endpoint answers with an array of shape (n, 0). *)
Definition env_empty_row : env :=
  with_predict (demo_env 0 7 no_fault)
    (λ _ a, inr {| columns := 0; rows := (λ _, [#]) <$> a |}).

(** The endpoint answers with an array of shape (0, 10). *)
Definition env_no_rows : env :=
  with_predict (demo_env 0 7 no_fault) (λ _ _, inr {| columns := 10; rows := [] |}).

(** The exceptions that the code of the notebook raises by itself, not
    through a call that it logs: [np.array] of rows of different lengths,
    [reshape] of an image that has not 784 pixels and [argmax] along an
    empty axis, the variable [data] that was never set, and [[0]] of an
    array without rows. *)
Definition own_exception (W : env) (e : exn) (t : history) : Prop :=
  e = ValueError
  ∨ (e = NameError ∧ env_data W = None)
  ∨ (e = IndexError ∧ count (returned is_Predict) t = 2).

(** ** More states and environments *)

(** ['output/single_machine_mnist'] *)
Definition output_dir : path := ["output"; "single_machine_mnist"].

(** The file system with / and /tmp, made on an empty disk. *)
Definition tmp_only : filesystem := (makedirs_fs None [""; "tmp"] ∅).2.


(** A file system in which output/single_machine_mnist is there. *)
Definition with_output_dir : filesystem := (makedirs_fs None output_dir ∅).2.


(** The estimator after [fit]. *)
Definition demo_estimator : estimator :=
  {| entry_point := "chainer_mnist_single_machine.py";
     role := "arn:aws:iam::role/demo";
     train_instance_count := 1;
     train_instance_type := "local";
     hyperparameters := [("epochs", 3%Z); ("batch_size", 128%Z)];
     latest_training_job := Some "job-1" |}.

(** ** The calls of a run that completes *)









(** * Proofs *)

(** ** Examples *)

Example ancestors_tmp_data_train :
  ancestors (split_path "/tmp/data/train")
  = [[""]; [""; "tmp"]; [""; "tmp"; "data"]].
Proof. reflexivity. Qed.

Example str_replace_uri :
  str_replace "model" "output" "s3://my-models/job-1/output/model.tar.gz"
  = "s3://my-outputs/job-1/output/output.tar.gz".
Proof. reflexivity. Qed.

Example show_labels_pads : show_labels [7; 10] = "[ 7 10]".
Proof. reflexivity. Qed.

Example to_float32_rounds :
  to_float32 (1 # 10) = Finite (13421773 # 134217728) ∧
  to_float32 (16777217 # 1) = Finite 16777216 ∧
  to_float32 (inject_Z (2 ^ 128)) = PosInf.
Proof. vm_compute. done. Qed.

Example np_array_of_ragged_rows :
  np_array_float32 [[1%Q]; [1%Q; 2%Q]] = inl ValueError.
Proof. reflexivity. Qed.

Example argmax_axis1_of_empty_arrays :
  argmax_axis1 {| columns := 0; rows := [] |} = inl ValueError ∧
  argmax_axis1 {| columns := 10; rows := [] |} = inr [].
Proof. done. Qed.

(** [os.makedirs('/tmp/data/train')] on an empty disk, failing at the last
    directory: the directories above it are made. *)
Example makedirs_fails_halfway :
  makedirs_fs (Some {| fault_exn := PermissionError; fault_done := λ _, true |})
    (split_path "/tmp/data/train") ∅
  = (inl PermissionError, (makedirs_fs None (split_path "/tmp/data") ∅).2).
Proof. vm_compute. reflexivity. Qed.

(** ** The file system model *)

Lemma parent_snoc (l : path) (x : string) : l ≠ [] → parent (l ++ [x]) = Some l.
Proof.
  intros Hl. unfold parent.
  destruct l as [|a l]; [done|]. destruct l as [|b l]; [done|].
  f_equal. change (a :: b :: l ++ [x]) with ((a :: b :: l) ++ [x]).
  rewrite length_app. simpl length.
  replace (S (S (length l)) + 1 - 1) with (length (a :: b :: l)) by (simpl; lia).
  by rewrite take_app_length.
Qed.

Lemma parent_shorter (p q : path) : parent p = Some q → length q < length p.
Proof.
  unfold parent. destruct p as [|a [|b p]]; [done|done|].
  intros [= <-]. simpl. rewrite length_take. simpl. lia.
Qed.

Lemma parent_ne (p q : path) : parent p = Some q → q ≠ p.
Proof. intros H ->. apply parent_shorter in H. lia. Qed.

(** Below a path that is not a directory there is nothing. *)
Lemma nothing_below (fs : filesystem) (root : path) :
  fs_wf fs → root ≠ [] → fs !! root ≠ Some Dir →
  ∀ p, root `prefix_of` p → p ≠ root → fs !! p = None.
Proof.
  intros Hwf Hroot Hnd p [q ->]. induction q as [|x q IH] using rev_ind.
  - rewrite app_nil_r. done.
  - intros _. destruct (fs !! (root ++ q ++ [x])) as [n|] eqn:E; [|done].
    exfalso. rewrite app_assoc in E.
    assert (fs !! (root ++ q) = Some Dir) as Hd.
    { eapply Hwf; [exact E|]. apply parent_snoc. by destruct root. }
    destruct q as [|y q].
    + rewrite app_nil_r in Hd. done.
    + rewrite IH in Hd; [done|]. intros Heq.
      apply (f_equal length) in Heq. rewrite length_app in Heq. simpl in Heq. lia.
Qed.

Lemma extends_refl w fs : extends w fs fs.
Proof. split; auto. Qed.

Lemma extends_trans w fs1 fs2 fs3 :
  extends w fs1 fs2 → extends w fs2 fs3 → extends w fs1 fs3.
Proof.
  intros [A1 B1] [A2 B2]. split; [auto|].
  intros q Hq. destruct (B2 q Hq) as [H|H]; [|by right]. by apply B1.
Qed.

Lemma mkdir_inv p fs fs' :
  mkdir p fs = inr fs' →
  fs' = <[p := Dir]> fs ∧ fs !! p = None ∧
  (∀ q, parent p = Some q → fs !! q = Some Dir).
Proof.
  unfold mkdir. destruct (fs !! p) eqn:Ep; [done|].
  destruct (parent p) as [q|] eqn:Eq.
  - destruct (fs !! q) as [[]|] eqn:Eq'; [|done|done].
    intros [= <-]. split_and!; [done|done|]. by intros ? [= <-].
  - intros [= <-]. done.
Qed.

Lemma mkdir_wf p fs fs' : fs_wf fs → mkdir p fs = inr fs' → fs_wf fs'.
Proof.
  intros Hwf (-> & Hp & Hq)%mkdir_inv p0 n q0 H0 Hpar.
  destruct (decide (p0 = p)) as [->|Hne].
  - rewrite lookup_insert_ne; [by apply Hq|]. intros <-. by eapply parent_ne.
  - rewrite lookup_insert_ne in H0 by done.
    pose proof (Hwf _ _ _ H0 Hpar) as Hd.
    rewrite lookup_insert_ne; [done|]. intros <-. by rewrite Hp in Hd.
Qed.

Lemma mkdir_extends w p fs fs' : mkdir p fs = inr fs' → extends w fs fs'.
Proof.
  intros (-> & Hp & _)%mkdir_inv. split; intros q Hq.
  - rewrite lookup_insert_ne; [done|]. intros <-. by rewrite Hp in Hq.
  - left. destruct (decide (p = q)) as [->|Hne].
    + by rewrite lookup_insert_eq in Hq.
    + by rewrite lookup_insert_ne in Hq.
Qed.

Lemma make_ancestors_inv w fault ancs fs o fs' :
  make_ancestors fault ancs fs = (o, fs') →
  extends w fs fs' ∧ (fs_wf fs → fs_wf fs').
Proof.
  revert fs. induction ancs as [|a ancs IH]; intros fs; simpl.
  - intros [= <- <-]. split; [apply extends_refl|done].
  - destruct (fs !! a) eqn:Ea; [by apply IH|].
    destruct (mkdir a fs) as [e|fs1] eqn:Em.
    + intros [= <- <-]. split; [apply extends_refl|done].
    + destruct (strikes fault a).
      * intros [= <- <-]. split; [apply extends_refl|done].
      * intros H. destruct (IH _ H) as [Hext Hwf]. split.
        -- eapply extends_trans; [by eapply mkdir_extends|done].
        -- intros Hw. apply Hwf. by eapply mkdir_wf.
Qed.

Lemma makedirs_fs_inv w fault p fs r fs' :
  makedirs_fs fault p fs = (r, fs') →
  extends w fs fs' ∧ (fs_wf fs → fs_wf fs') ∧
  (∀ q, r = inr () → parent p = Some q → fs' !! q = Some Dir).
Proof.
  unfold makedirs_fs.
  destruct (make_ancestors fault (ancestors p) fs) as [[e|] fs1] eqn:Ea.
  - intros [= <- <-]. destruct (make_ancestors_inv w _ _ _ _ _ Ea). done.
  - destruct (make_ancestors_inv w _ _ _ _ _ Ea) as [Hext Hwf].
    destruct (mkdir p fs1) as [e|fs2] eqn:Em.
    + intros [= <- <-]. done.
    + destruct fault as [f|]; [intros [= <- <-]; done|].
      intros [= <- <-]. split_and!.
      * eapply extends_trans; [done|by eapply mkdir_extends].
      * intros Hw. eapply mkdir_wf; [|done]. by apply Hwf.
      * intros q _ Hq. apply mkdir_inv in Em as (-> & Hp & Hd).
        rewrite lookup_insert_ne; [by apply Hd|]. intros <-. by eapply parent_ne.
Qed.



(** ** [str.replace('model', 'output')] *)

Arguments String.append : simpl nomatch.








(** ** [argmax] *)

Lemma f32_le_not_nan a b : f32_le a b = true → is_nan a = false ∧ is_nan b = false.
Proof. by destruct a, b. Qed.

Lemma f32_le_refl a : is_nan a = false → f32_le a a = true.
Proof. destruct a; try done. intros _. simpl. apply Qle_bool_iff, Qle_refl. Qed.

Lemma f32_le_trans a b c : f32_le a b = true → f32_le b c = true → f32_le a c = true.
Proof.
  destruct a, b, c; try done. simpl. rewrite !Qle_bool_iff. apply Qle_trans.
Qed.

Lemma f32_le_total a b :
  is_nan a = false → is_nan b = false → f32_le a b = true ∨ f32_le b a = true.
Proof.
  destruct a as [| |x|], b as [| |y|]; try done; simpl; auto.
  intros _ _. rewrite !Qle_bool_iff.
  destruct (Qlt_le_dec x y) as [H|H]; [left; by apply Qlt_le_weak|by right].
Qed.

Lemma existsb_is_nan_false (l : list f32) :
  existsb is_nan l = false ↔ ∀ x, x ∈ l → is_nan x = false.
Proof.
  induction l as [|y l IH]; simpl.
  - split; [|done]. intros _ x Hx. by apply not_elem_of_nil in Hx.
  - rewrite orb_false_iff, IH. split.
    + intros [Hy Hl] x [->|Hx]%elem_of_cons; auto.
    + intros H. split; [apply H; left|intros x Hx; apply H; by right].
Qed.

Lemma argmax_go_spec rest pre mp max_ind :
  pre !! max_ind = Some mp →
  (∀ x, x ∈ pre → f32_le x mp = true) →
  (∀ j x, j < max_ind → pre !! j = Some x → f32_le mp x = false) →
  is_argmax (pre ++ rest) (argmax_go mp max_ind (length pre) rest).
Proof.
  revert pre mp max_ind.
  induction rest as [|x rest IH]; intros pre mp max_ind Hmp Hmax Hfirst.
  - simpl. rewrite app_nil_r. exists mp. split; [done|].
    replace (existsb is_nan pre) with false; [done|].
    symmetry. apply existsb_is_nan_false. intros y Hy.
    by destruct (f32_le_not_nan _ _ (Hmax y Hy)).
  - assert (is_nan mp = false) as Hnn.
    { apply (f32_le_not_nan mp mp), Hmax. by eapply list_elem_of_lookup_2. }
    assert (∀ y, y ∈ pre → is_nan y = false) as Hpre.
    { intros y Hy. by destruct (f32_le_not_nan _ _ (Hmax y Hy)). }
    assert (max_ind < length pre) as Hlt by by eapply lookup_lt_Some.
    replace (pre ++ x :: rest) with ((pre ++ [x]) ++ rest)
      by by rewrite <- app_assoc.
    simpl. destruct (f32_le x mp) eqn:Hle; [|destruct (is_nan x) eqn:Hnan].
    + replace (S (length pre)) with (length (pre ++ [x]))
        by (rewrite length_app; simpl; lia).
      apply IH.
      * by apply lookup_app_l_Some.
      * intros y [Hy| ->%list_elem_of_singleton]%elem_of_app; auto.
      * intros j y Hj Hy. rewrite lookup_app_l in Hy by lia. eauto.
    + exists x. split.
      { rewrite <- app_assoc. simpl. by apply list_lookup_middle. }
      replace (existsb is_nan ((pre ++ [x]) ++ rest)) with true.
      * split; [done|]. intros j y Hj Hy.
        rewrite <- app_assoc in Hy. rewrite lookup_app_l in Hy by done.
        apply Hpre. by eapply list_elem_of_lookup_2.
      * symmetry. apply existsb_exists. exists x. split; [|done].
        apply list_elem_of_In. set_solver.
    + replace (S (length pre)) with (length (pre ++ [x]))
        by (rewrite length_app; simpl; lia).
      assert (f32_le mp x = true) as Hmx.
      { destruct (f32_le_total mp x Hnn Hnan); [done|congruence]. }
      apply IH.
      * by apply list_lookup_middle.
      * intros y [Hy| ->%list_elem_of_singleton]%elem_of_app.
        -- eapply f32_le_trans; [by apply Hmax|done].
        -- by apply f32_le_refl.
      * intros j y Hj Hy. rewrite lookup_app_l in Hy by done.
        destruct (f32_le x y) eqn:Hxy; [|done].
        assert (f32_le x mp = true); [|congruence].
        eapply f32_le_trans; [done|]. apply Hmax. by eapply list_elem_of_lookup_2.
Qed.

Lemma argmax_spec row i : argmax row = inr i → is_argmax row i.
Proof.
  destruct row as [|x rest]; [done|]. simpl. intros [= <-].
  destruct (is_nan x) eqn:Hnan.
  - exists x. split; [done|]. simpl. rewrite Hnan. simpl. split; [done|]. lia.
  - apply (argmax_go_spec rest [x] x 0); [done|..].
    + intros y ->%list_elem_of_singleton. by apply f32_le_refl.
    + lia.
Qed.

Lemma argmax_empty row e : argmax row = inl e → row = [] ∧ e = ValueError.
Proof. destruct row; simpl; [intros [= <-]; by split|intros [=]]. Qed.

Lemma argmax_rows_spec a labels :
  argmax_rows a = inr labels → Forall2 is_argmax a labels.
Proof.
  revert labels. induction a as [|row a IH]; intros labels; simpl.
  - intros [= <-]. constructor.
  - destruct (argmax row) as [e|i] eqn:Hrow; [intros [=]|].
    destruct (argmax_rows a) as [e'|rest]; [intros [=]|].
    intros [= <-]. constructor; [by apply argmax_spec|by apply IH].
Qed.

(** Rows that are not empty all have their [argmax]. *)
Lemma argmax_rows_total a :
  Forall (λ row, row ≠ []) a → ∃ labels, argmax_rows a = inr labels.
Proof.
  induction 1 as [|row a Hrow _ [labels IH]]; simpl; [by eexists|].
  destruct row as [|x row]; [done|]. simpl. rewrite IH. by eexists.
Qed.

Lemma argmax_axis1_spec a labels :
  argmax_axis1 a = inr labels →
  columns a ≠ 0 ∧ Forall2 is_argmax (row_lists a) labels.
Proof.
  unfold argmax_axis1. case_bool_decide as Hc; [intros [=]|].
  intros Hl. split; [done|]. by apply argmax_rows_spec.
Qed.

(** [argmax(axis=1)] raises for the arrays of shape (n, 0), and for no
    other. *)
Lemma argmax_axis1_error a e :
  argmax_axis1 a = inl e → e = ValueError ∧ columns a = 0.
Proof.
  unfold argmax_axis1. case_bool_decide as Hc; [by intros [= <-]|].
  destruct (argmax_rows_total (row_lists a)) as [labels ->]; [|intros [=]].
  unfold row_lists. apply Forall_fmap, Forall_forall. intros v _. simpl.
  intros Hv. apply (f_equal length) in Hv. rewrite length_vec_to_list in Hv.
  done.
Qed.

Lemma argmax_axis1_total a :
  columns a ≠ 0 → ∃ labels, argmax_axis1 a = inr labels.
Proof.
  intros Hc. destruct (argmax_axis1 a) as [e|labels] eqn:E; [|by eexists].
  by apply argmax_axis1_error in E as [_ ?].
Qed.

(** ** [random.sample] *)

(** Moving the last live item into the place of the chosen one keeps the
    live items, minus the chosen one. *)
Lemma pool_step (pool : list nat) (live j x y : nat) :
  j < live → pool !! j = Some x → pool !! (live - 1) = Some y →
  take live pool ≡ₚ x :: take (live - 1) (<[j := y]> pool).
Proof.
  intros Hj Hx Hy.
  replace live with (S (live - 1)) at 1 by lia.
  rewrite (take_S_r _ _ y) by done.
  destruct (decide (j = live - 1)) as [->|Hne].
  - assert (x = y) as -> by congruence.
    rewrite list_insert_id by done. by rewrite Permutation_app_comm.
  - rewrite take_insert_lt by lia.
    set (l := take (live - 1) pool).
    assert (l !! j = Some x) as Hl.
    { unfold l. rewrite lookup_take_lt by lia. done. }
    assert (j < length l) as Hjl by by eapply lookup_lt_Some.
    rewrite insert_take_drop by done.
    rewrite <- (take_drop_middle l j x) at 1 by done.
    rewrite <- app_assoc. simpl.
    transitivity (x :: take j l ++ drop (S j) l ++ [y]);
      [symmetry; apply Permutation_middle|].
    constructor. apply Permutation_app_head.
    apply (Permutation_app_comm _ [y]).
Qed.

Lemma sample_pool_spec rnd k d (pool : list nat) live :
  k ≤ live → live ≤ length pool → NoDup (take live pool) →
  ∃ xs, sample_pool rnd d pool live k = inr xs ∧
        length xs = k ∧ NoDup xs ∧ ∀ x, x ∈ xs → x ∈ take live pool.
Proof.
  revert d pool live. induction k as [|k IH]; intros d pool live Hk Hlive Hnd.
  - exists []. simpl. split_and!; [done|done|constructor|].
    intros x Hx. by apply not_elem_of_nil in Hx.
  - simpl. set (j := rnd d `mod` live).
    assert (j < live) as Hj by (apply Nat.mod_upper_bound; lia).
    destruct (lookup_lt_is_Some_2 pool j) as [x Hx]; [lia|].
    destruct (lookup_lt_is_Some_2 pool (live - 1)) as [y Hy]; [lia|].
    rewrite Hx, Hy.
    pose proof (pool_step pool live j x y Hj Hx Hy) as Hperm.
    rewrite Hperm in Hnd. apply NoDup_cons in Hnd as [Hfresh Hnd'].
    destruct (IH (S d) (<[j := y]> pool) (live - 1)) as (xs & -> & Hlen & Hxs & Hin).
    + lia.
    + rewrite length_insert. lia.
    + done.
    + exists (x :: xs). split_and!; [done|simpl; lia| |].
      * apply NoDup_cons. split; [|done]. intros Hx'. by apply Hfresh, Hin.
      * intros z Hz. rewrite Hperm. apply elem_of_cons in Hz as [->|Hz]; [left|right].
        by apply Hin.
Qed.

Lemma redraw_fresh rnd n selected patience d j j' d' :
  j < n → 0 < n →
  redraw rnd n selected patience d j = Some (j', d') →
  j' < n ∧ j' ∉ selected.
Proof.
  intros Hj Hn. revert d j Hj.
  induction patience as [|p IH]; intros d j Hj; simpl.
  - case_bool_decide; [done|]. by intros [= <- <-].
  - case_bool_decide; [|by intros [= <- <-]].
    apply IH. by apply Nat.mod_upper_bound, Nat.neq_0_lt_0.
Qed.

Lemma sample_set_spec rnd patience n k selected d xs :
  sample_set rnd patience (seq 0 n) selected d k = inr xs →
  length xs = k ∧ NoDup xs ∧ ∀ x, x ∈ xs → x < n ∧ x ∉ selected.
Proof.
  revert selected d xs. induction k as [|k IH]; intros selected d xs; simpl.
  - intros [= <-]. split_and!; [done|constructor|].
    intros x Hx. by apply not_elem_of_nil in Hx.
  - rewrite length_seq.
    destruct (redraw rnd n selected patience (S d) (rnd d `mod` n))
      as [[j d']|] eqn:Hr; [|done].
    destruct (seq 0 n !! j) as [x|] eqn:Hx; [|done].
    apply lookup_seq in Hx as [-> Hjn]. simpl in *.
    destruct (sample_set rnd patience (seq 0 n) (j :: selected) d' k)
      as [e|xs'] eqn:Hs; [done|].
    intros [= <-]. destruct (IH _ _ _ Hs) as (Hlen & Hnd & Hin).
    apply redraw_fresh in Hr as [_ Hfresh];
      [|apply Nat.mod_upper_bound; lia|lia].
    split_and!; [simpl; lia| |].
    + apply NoDup_cons. split; [|done]. intros Hj. apply Hin in Hj as [_ Hj].
      apply Hj. left.
    + intros x [->|Hx]%elem_of_cons; [done|].
      destruct (Hin x Hx) as [? Hns]. split; [done|]. intros ?. apply Hns. by right.
Qed.

Lemma sample_set_error rnd patience n k selected d e :
  k + length selected ≤ n →
  sample_set rnd patience (seq 0 n) selected d k = inl e → e = KeyboardInterrupt.
Proof.
  revert selected d. induction k as [|k IH]; intros selected d Hk; simpl; [done|].
  rewrite length_seq.
  destruct (redraw rnd n selected patience (S d) (rnd d `mod` n))
    as [[j d']|] eqn:Hr; [|by intros [= <-]].
  apply redraw_fresh in Hr as [Hjn _]; [|apply Nat.mod_upper_bound; lia|lia].
  rewrite lookup_seq_lt by done. simpl.
  destruct (sample_set rnd patience (seq 0 n) (j :: selected) d' k)
    as [e'|xs'] eqn:Hs; [|done].
  intros [= <-]. eapply IH; [|done]. simpl. lia.
Qed.

(** What [random.sample(range(z), k)] returns or raises. *)
Lemma random_sample_spec rnd patience (z : Z) k :
  match random_sample rnd patience (py_range z) k with
  | inr xs => k ≤ Z.to_nat z ∧ length xs = k ∧ NoDup xs ∧
              ∀ x, x ∈ xs → (Z.of_nat x < z)%Z
  | inl e => (e = ValueError ∧ Z.to_nat z < k) ∨
             (e = KeyboardInterrupt ∧ k ≤ Z.to_nat z ∧ (21 < z)%Z)
  end.
Proof.
  unfold random_sample, py_range. rewrite length_seq.
  case_bool_decide as Hk; [|left; split; [done|lia]].
  case_bool_decide as Hsmall.
  - destruct (sample_pool_spec rnd k 0 (seq 0 (Z.to_nat z)) (Z.to_nat z))
      as (xs & -> & Hlen & Hnd & Hin).
    + done.
    + by rewrite length_seq.
    + rewrite take_ge by by rewrite length_seq. apply NoDup_seq.
    + split_and!; [lia|done|done|]. intros x Hx. apply Hin in Hx.
      rewrite take_ge in Hx by by rewrite length_seq.
      apply elem_of_seq in Hx. lia.
  - destruct (sample_set rnd patience (seq 0 (Z.to_nat z)) [] 0 k) as [e|xs] eqn:Hs.
    + right. apply sample_set_error in Hs as ->; [|simpl; lia].
      split_and!; [done|lia|lia].
    + apply sample_set_spec in Hs as (Hlen & Hnd & Hin).
      split_and!; [lia|done|done|]. intros x Hx. apply Hin in Hx. lia.
Qed.


(** ** Reading the log *)

Lemma comes_after_b_sound P Q seen t :
  comes_after_b P Q seen t = true →
  ∀ i e, t !! i = Some e → Q e = true →
    seen = true ∨ ∃ j e', j < i ∧ t !! j = Some e' ∧ P e' = true.
Proof.
  revert seen. induction t as [|x t IH]; intros seen H i e Hi HQ; [done|].
  simpl in H. apply andb_true_iff in H as [H1 H2].
  destruct i as [|i]; simpl in Hi.
  - injection Hi as ->. rewrite HQ in H1. simpl in H1. by left.
  - destruct (IH _ H2 i e Hi HQ) as [Hs | (j & e' & Hj & He' & HP)].
    + apply orb_true_iff in Hs as [Hs | Hs]; [by left|].
      right. exists 0, x. split; [lia|]. done.
    + right. exists (S j), e'. split; [lia|]. done.
Qed.

Lemma comes_after_reflect P Q t :
  comes_after_b P Q false t = true → comes_after P Q t.
Proof.
  intros H i e Hi HQ.
  destruct (comes_after_b_sound _ _ _ _ H i e Hi HQ) as [?|?]; [done|done].
Qed.

Lemma only_last_reflect Q t : only_last_b Q t = true → only_last Q t.
Proof.
  induction t as [|x t IH]; intros H i e Hi HQ; [done|].
  simpl in H. apply andb_true_iff in H as [H1 H2].
  destruct i as [|i]; simpl in Hi.
  - injection Hi as ->. rewrite HQ in H1. simpl in H1.
    apply bool_decide_eq_true in H1 as ->. done.
  - simpl. f_equal. by eapply IH.
Qed.

Lemma all_raised_split P pre c e rest :
  all_raised P (pre ++ Ev c (Some e) :: rest) → P c e rest.
Proof.
  induction pre as [|ev pre IH]; simpl; [tauto|]. intros [_ H]. by apply IH.
Qed.

(** ** Rules for [wp] *)

Section wp_rules.
Context {A B : Type}.
Implicit Types (Φ : exn + A → state → Prop) (Ψ : exn + B → state → Prop).

Lemma wp_ret (a : A) Φ s : Φ (inr a) s → wp (mret a) Φ s.
Proof. done. Qed.

Lemma wp_raise (e : exn) Φ s : Φ (inl e) s → wp (raise e) Φ s.
Proof. done. Qed.

Lemma wp_lift (r : exn + A) Φ s : Φ r s → wp (lift r) Φ s.
Proof. done. Qed.

Lemma wp_bind (m : M A) (k : A → M B) Ψ s :
  wp m (λ r s', match r with
                | inl e => Ψ (inl e) s'
                | inr a => wp (k a) Ψ s'
                end) s →
  wp (m ≫= k) Ψ s.
Proof.
  unfold wp, mbind, M_bind. destruct (m s) as [[e|a] s']; done.
Qed.

Lemma wp_ext (c : call) f Φ s :
  (∀ r fs', f (log s) (fs s) = (r, fs') →
            Φ r {| fs := fs'; log := log s ++ [Ev c (raised r)] |}) →
  wp (ext c f) Φ s.
Proof.
  unfold wp, ext. intros H. destruct (f (log s) (fs s)) as [r fs'] eqn:E.
  by apply H.
Qed.

Lemma wp_try_finally (body : M A) (cleanup : M unit) Φ s :
  wp body (λ r s', wp cleanup (λ r' s'',
                     match r' with
                     | inl e => Φ (inl e) s''
                     | inr _ => Φ r s''
                     end) s') s →
  wp (try_finally body cleanup) Φ s.
Proof.
  unfold wp, try_finally. destruct (body s) as [r s']; simpl.
  destruct (cleanup s') as [[e|u] s'']; done.
Qed.
End wp_rules.

Lemma wp_try_except_OSError_pass (body : M unit) Φ s :
  wp body (λ r s', match r with
                   | inl e => if is_OSError e then Φ (inr ()) s' else Φ (inl e) s'
                   | inr _ => Φ (inr ()) s'
                   end) s →
  wp (try_except_OSError_pass body) Φ s.
Proof.
  unfold wp, try_except_OSError_pass. destruct (body s) as [[e|u] s']; simpl.
  - by destruct (is_OSError e).
  - done.
Qed.

Lemma wp_for_each_nil {A} (body : A → M unit) Φ s :
  Φ (inr ()) s → wp (for_each [] body) Φ s.
Proof. done. Qed.

Lemma wp_for_each_cons {A} (x : A) l (body : A → M unit) Φ s :
  wp (body x ≫= λ _, for_each l body) Φ s → wp (for_each (x :: l) body) Φ s.
Proof. done. Qed.

Lemma wp_ext_pure {A} (c : call) (f : history → exn + A) Φ s :
  (∀ r, f (log s) = r →
        Φ r {| fs := fs s; log := log s ++ [Ev c (raised r)] |}) →
  wp (ext_pure c f) Φ s.
Proof. intros H. apply wp_ext. intros r fs' [= <- <-]. by apply H. Qed.

Lemma wp_elim {A} (m : M A) Φ s : wp m Φ s → Φ (m s).1 (m s).2.
Proof. done. Qed.

(** ** Symbolic execution of the cells *)

(** The library functions stay folded while a cell is run. *)
Arguments makedirs_fs : simpl never.
Arguments write_file : simpl never.
Arguments rmtree_fs : simpl never.
Arguments random_sample : simpl never.
Arguments take_indices : simpl never.
Arguments argmax_axis1 : simpl never.
Arguments getitem : simpl never.
Arguments reshape_28_28 : simpl never.
Arguments str_replace : simpl never.
Arguments select_instance_type : simpl never.
Arguments show_labels : simpl never.
Arguments String.append : simpl never.
Arguments pretty : simpl never.
Arguments is_OSError : simpl never.

(** Unfolds the cells down to the external calls. *)
Ltac wp_unfold :=
  unfold notebook, cell1, cell3, cell5, cell7, cell7_body, cell9, cell11,
    cell13, cell15, cell17, cell19, cell21, cell23, cell25, cell27, cell29,
    sample_indices, makedirs, savez, upload_data, rmtree, print, plt,
    predict, shell.

(** One step: the rule for the construct at the head of the program.  An
    external call splits the goal in two, for its raising and for its
    returning. *)
Ltac wp_step :=
  lazymatch goal with
  | |- wp (mbind _ _) _ _ => apply wp_bind
  | |- wp (mret _) _ _ => apply wp_ret
  | |- wp (raise _) _ _ => apply wp_raise
  | |- wp (lift ?r) _ _ => apply wp_lift; destruct r eqn:?
  | |- wp (try_finally _ _) _ _ => apply wp_try_finally
  | |- wp (try_except_OSError_pass _) _ _ => apply wp_try_except_OSError_pass
  | |- wp (for_each [] _) _ _ => apply wp_for_each_nil
  | |- wp (for_each (_ :: _) _) _ _ => apply wp_for_each_cons
  | |- wp (ext_pure _ _) _ _ =>
      let r := fresh "r" in let E := fresh "E" in
      apply wp_ext_pure; intros r E; destruct r; cbn [raised app log fs]
  | |- wp (ext_os _ _ _) _ _ => unfold ext_os
  | |- wp (ext _ _) _ _ =>
      let r := fresh "r" in let E := fresh "E" in
      apply wp_ext; intros r ? E; cbn [log fs] in E; destruct r;
      cbn [raised app log fs]
  | |- wp (match ?x with _ => _ end) _ _ => destruct x eqn:?
  | |- if ?b then _ else _ => destruct b eqn:?
  end.

(** Runs a cell to all its ends. *)
Ltac wp_exec :=
  wp_unfold;
  repeat (wp_step;
          cbn beta iota zeta delta
            [seq num_samples latest_training_job train_instance_type
             train_input test_input test_images test_labels fst snd]).

(** [only_cleanup] of a concrete log. *)
Ltac solve_only_cleanup :=
  first [left; reflexivity | right; reflexivity].

(** [all_raised] of a concrete log: one goal per event that raised. *)
Ltac each_raised :=
  cbn [all_raised ev_raised ev_call log];
  repeat match goal with |- _ ∧ _ => split end;
  try exact I.

(** [emitted] when the log of the end state is the log of the start state
    with events appended. *)
Ltac emitted_norm :=
  unfold emitted; cbn [log snd]; rewrite <- ?app_assoc; rewrite ?drop_app_length;
  cbn [app].

(** ** Cell 7: the cleanup *)








Lemma the_fault_None (W : env) (h : history) (c : call) :
  env_os_fault W h c = None → the_fault W h c = None.
Proof. unfold the_fault. by intros ->. Qed.


(** Cell 7 in terms of the body of its [try] and of the cleanup. *)
Lemma cell7_unfold W train test s :
  cell7 W train test s
  = let r := (cell7_body W s).1 in
    let s1 := (cell7_body W s).2 in
    let c := rmtree_fs (the_fault W (log s1) (Rmtree "/tmp/data")) tmp_data (fs s1) in
    (match c.1, r with
     | inl e, _ => inl e
     | inr _, inl e => inl e
     | inr _, inr inputs =>
         inr {| train_images := train.*1; train_labels := train.*2;
                test_images := test.*1; test_labels := test.*2;
                train_input := inputs.1; test_input := inputs.2 |}
     end,
     {| fs := c.2; log := log s1 ++ [Ev (Rmtree "/tmp/data") (raised c.1)] |}).
Proof.
  unfold cell7, mbind, M_bind, try_finally, rmtree, ext_os, ext.
  destruct (cell7_body W s) as [r1 s1]. simpl.
  change (split_path "/tmp/data") with tmp_data.
  destruct (rmtree_fs _ tmp_data (fs s1)) as [r fs']. simpl.
  by destruct r, r1.
Qed.










(** A run of cell 7 in which the second upload fails: the cleanup
    returns. *)
Example staging_cleanup_after_a_failed_upload :
  emitted (cell7 env_upload_fails (blank_dataset 3) (blank_dataset 7)) demo_state
  = [Ev (Makedirs "/tmp/data/train") None; Ev (Makedirs "/tmp/data/test") None;
     Ev (Savez "/tmp/data/train/train.npz") None;
     Ev (Savez "/tmp/data/test/test.npz") None;
     Ev (UploadData "/tmp/data/train" "notebook/chainer/mnist") None;
     Ev (UploadData "/tmp/data/test" "notebook/chainer/mnist")
        (Some (ClientError "throttled"));
     Ev (Rmtree "/tmp/data") None].
Proof. vm_compute. reflexivity. Qed.


(** ** Runs of the whole notebook *)






Lemma run_order W fs0 : order_b (trace (run W fs0)) = true.
Proof.
  change (wp (notebook W) (λ r s, order_b (log s) = true)
            {| fs := fs0; log := [] |}).
  wp_exec.
  all: reflexivity.
Qed.

(** C5. In a run of the notebook from top to bottom: the dataset has been
    fetched before anything is serialized or uploaded; the estimator has
    been constructed before [fit]; [fit] has returned before any artifact is
    downloaded or shown and before [deploy]; [deploy] has returned before
    any [predict]; and [delete_endpoint], when it is reached, is the last
    call, made after both [predict] calls have returned. *)
Theorem notebook_order W fs0 :
  comes_after (returned is_GetMnist) (called is_staging) (trace (run W fs0)) ∧
  comes_after (returned is_Chainer) (called is_Fit) (trace (run W fs0)) ∧
  comes_after (returned is_Fit) (called is_download_or_display) (trace (run W fs0)) ∧
  comes_after (returned is_Fit) (called is_Deploy) (trace (run W fs0)) ∧
  comes_after (returned is_Deploy) (called is_Predict) (trace (run W fs0)) ∧
  only_last (called is_DeleteEndpoint) (trace (run W fs0)) ∧
  (existsb (called is_DeleteEndpoint) (trace (run W fs0)) = true →
   count (returned is_Predict) (trace (run W fs0)) = 2).
Proof.
  pose proof (run_order W fs0) as H. unfold order_b in H.
  repeat (apply andb_true_iff in H as [H ?]).
  split_and!; try by apply comes_after_reflect.
  - by apply only_last_reflect.
  - intros Hd. rewrite Hd in *. simpl in *. by apply Nat.eqb_eq.
Qed.

(** The run in [demo_env]: [delete_endpoint] is reached, after two
    predictions. *)
Lemma notebook_order_witness :
  count (returned is_Predict) (trace (run (demo_env 0 7 no_fault) ∅)) = 2.
Proof.
  apply (proj2 (proj2 (proj2 (proj2 (proj2 (proj2
           (notebook_order (demo_env 0 7 no_fault) ∅))))))).
  vm_compute. reflexivity.
Defined.

Lemma run_suppressed_or_fatal W fs0 :
  all_raised (suppressed_or_fatal (outcome (run W fs0))) (trace (run W fs0)).
Proof.
  change (wp (notebook W) (λ r s, all_raised (suppressed_or_fatal r) (log s))
            {| fs := fs0; log := [] |}).
  wp_exec.
  all: each_raised.
  all: first
    [ left; split; [by split|]; eexists _, _; split; reflexivity
    | right; split;
      [ intros [Hc Ho]; first [discriminate Hc | congruence]
      | split; [by eexists | solve_only_cleanup] ] ].
Qed.






(** C3 (amended). An exception raised by a call of the notebook
    is swallowed in exactly one case: it comes from
    [os.makedirs('output/single_machine_mnist')] and is an [OSError] of any
    kind (already exists, permission denied, ...); the cell then goes on
    with [describe_training_job].  In every other case - also when that
    [os.makedirs] raises something that is not an [OSError] - the run ends
    with an exception and nothing but the cleanup of cell 7 follows. *)
Theorem only_makedirs_OSError_is_suppressed W fs0 pre c e rest :
  trace (run W fs0) = pre ++ Ev c (Some e) :: rest →
  (suppressed c e ∧
   ∃ ev rest', rest = ev :: rest' ∧ is_DescribeTrainingJob (ev_call ev) = true)
  ∨ (¬ suppressed c e ∧ (∃ e', outcome (run W fs0) = inl e') ∧ only_cleanup rest).
Proof.
  intros Ht. pose proof (run_suppressed_or_fatal W fs0) as H.
  rewrite Ht in H. by apply all_raised_split in H.
Qed.

(** The run in which [os.makedirs] of cell 15 is denied permission. *)
Lemma only_makedirs_OSError_is_suppressed_witness :
  (suppressed (Makedirs "output/single_machine_mnist") PermissionError ∧
   ∃ ev rest',
     drop 17 (trace (run env_output_dir_denied ∅)) = ev :: rest' ∧
     is_DescribeTrainingJob (ev_call ev) = true)
  ∨ (¬ suppressed (Makedirs "output/single_machine_mnist") PermissionError ∧
     (∃ e', outcome (run env_output_dir_denied ∅) = inl e') ∧
     only_cleanup (drop 17 (trace (run env_output_dir_denied ∅)))).
Proof.
  apply (only_makedirs_OSError_is_suppressed env_output_dir_denied ∅
           (take 16 (trace (run env_output_dir_denied ∅)))).
  vm_compute. reflexivity.
Defined.

(** C3 does not hold as stated: it is not only "already exists" errors that
    are ignored.  Here [os.makedirs] is denied permission, and the exception
    is swallowed all the same: the run goes on to its end. *)
Lemma permission_error_is_suppressed :
  ¬ (∀ W fs0 pre e rest,
       trace (run W fs0)
       = pre ++ Ev (Makedirs "output/single_machine_mnist") (Some e) :: rest →
       e ≠ FileExistsError →
       outcome (run W fs0) = inl e).
Proof.
  intros H.
  specialize (H env_output_dir_denied ∅
                (take 16 (trace (run env_output_dir_denied ∅))) PermissionError
                (drop 17 (trace (run env_output_dir_denied ∅)))).
  assert (outcome (run env_output_dir_denied ∅) = inl PermissionError) as Hr.
  { apply H; [vm_compute; reflexivity|discriminate]. }
  vm_compute in Hr. discriminate Hr.
Qed.

(** ** Single cells *)

(** C6 (amended). When cell 7 completes, it has made exactly these
    calls, all of which returned: two directories made, two files written
    (train.npz and test.npz), two [upload_data] calls - one per directory -
    and the cleanup. *)
Theorem staging_two_files_two_uploads W train test s st s' :
  cell7 W train test s = (inr st, s') →
  emitted (cell7 W train test) s = (λ c, Ev c None) <$> staging_calls ∧
  count (called is_Savez) (emitted (cell7 W train test) s) = 2 ∧
  count (called is_UploadData) (emitted (cell7 W train test) s) = 2.
Proof.
  intros Hrun.
  assert (wp (cell7 W train test)
            (λ r s1, match r with
                     | inr _ => drop (length (log s)) (log s1)
                                = (λ c, Ev c None) <$> staging_calls
                     | inl _ => True
                     end) s) as H.
  { wp_exec. all: try exact I. all: emitted_norm; reflexivity. }
  apply wp_elim in H. unfold emitted. rewrite Hrun in *. simpl in H.
  simpl. rewrite H. done.
Qed.

(** Cell 7 in [demo_env], on an empty file system. *)
Lemma staging_two_files_two_uploads_witness :
  emitted (cell7 (demo_env 0 7 no_fault) (blank_dataset 3) (blank_dataset 7)) demo_state
  = (λ c, Ev c None) <$> staging_calls ∧
  count (called is_Savez)
    (emitted (cell7 (demo_env 0 7 no_fault) (blank_dataset 3) (blank_dataset 7)) demo_state) = 2 ∧
  count (called is_UploadData)
    (emitted (cell7 (demo_env 0 7 no_fault) (blank_dataset 3) (blank_dataset 7)) demo_state) = 2.
Proof.
  eapply (staging_two_files_two_uploads (demo_env 0 7 no_fault)
            (blank_dataset 3) (blank_dataset 7) demo_state).
  vm_compute. reflexivity.
Defined.

(** C6 does not hold as stated: a completed cell 7 has not written a single
    file and made a single upload call. *)
Lemma staging_is_not_one_file_one_upload :
  ¬ (∀ W train test s st s',
       cell7 W train test s = (inr st, s') →
       count (called is_Savez) (emitted (cell7 W train test) s) = 1 ∧
       count (called is_UploadData) (emitted (cell7 W train test) s) = 1).
Proof.
  intros H.
  destruct (cell7 (demo_env 0 7 no_fault) (blank_dataset 3) (blank_dataset 7) demo_state)
    as [r s'] eqn:E.
  assert (∃ st, r = inr st) as [st ->].
  { apply (f_equal fst) in E. vm_compute in E. rewrite <- E. by eexists. }
  destruct (H _ _ _ _ _ _ E) as [H1 _]. vm_compute in H1. discriminate H1.
Qed.

(** C8. Whenever cell 11 calls the [Chainer] constructor, [nvidia-smi] has
    returned an exit status, and the [train_instance_type] passed is
    ['local_gpu'] if that status is 0 and ['local'] if it is not; the
    estimator that the cell returns carries the same value. *)
Theorem instance_type_follows_nvidia_smi W role0 s :
  (∀ x o, Ev (Chainer x) o ∈ emitted (cell11 W role0) s →
     ∃ status, env_subprocess_call W (log s) "nvidia-smi" = inr status ∧
       (status = 0%Z ∧ x = "local_gpu" ∨ status ≠ 0%Z ∧ x = "local")) ∧
  (∀ instance_type est, (cell11 W role0 s).1 = inr (instance_type, est) →
     train_instance_type est = instance_type ∧
     Ev (Chainer instance_type) None ∈ emitted (cell11 W role0) s).
Proof.
  assert (∀ z, z = 0%Z ∧ select_instance_type z = "local_gpu"
               ∨ z ≠ 0%Z ∧ select_instance_type z = "local") as Hsel.
  { intros z. unfold select_instance_type. case_bool_decide; auto. }
  change (wp (cell11 W role0)
            (λ r s1,
               (∀ x o, Ev (Chainer x) o ∈ drop (length (log s)) (log s1) →
                  ∃ status, env_subprocess_call W (log s) "nvidia-smi" = inr status ∧
                    (status = 0%Z ∧ x = "local_gpu" ∨ status ≠ 0%Z ∧ x = "local")) ∧
               (∀ instance_type est, r = inr (instance_type, est) →
                  train_instance_type est = instance_type ∧
                  Ev (Chainer instance_type) None ∈ drop (length (log s)) (log s1))) s).
  wp_exec.
  all: emitted_norm; split.
  all: try (intros ? ? Heq; discriminate Heq).
  all: try (intros ?? [= <- <-]; split; [done|]).
  all: try (intros x o Hin; apply list_elem_of_In in Hin; simpl in Hin;
            repeat (destruct Hin as [Hin|Hin]; [try discriminate Hin|]);
            first [contradiction
                  |injection Hin as <- _; eexists; split; [done|apply Hsel]]).
  all: repeat first [apply list_elem_of_here|apply list_elem_of_further].
Qed.

(** Cell 11 in [demo_env], where [nvidia-smi] exits with 0. *)
Lemma instance_type_follows_nvidia_smi_witness :
  ∃ status, env_subprocess_call (demo_env 0 7 no_fault) (log demo_state) "nvidia-smi"
            = inr status ∧
    (status = 0%Z ∧ "local_gpu" = "local_gpu" ∨ status ≠ 0%Z ∧ "local_gpu" = "local").
Proof.
  apply (proj1 (instance_type_follows_nvidia_smi (demo_env 0 7 no_fault) "role" demo_state)
           "local_gpu" None).
  vm_compute. apply list_elem_of_further, list_elem_of_further, list_elem_of_here.
Defined.

(** Cell 23 and cell 27 when every call returns. *)
Lemma cell23_returns W images s prediction :
  env_predict W (log s) images = inr prediction →
  columns prediction ≠ 0 →
  (∀ text, env_print W (log s ++ [Ev Predict None]) text = None) →
  ∃ labels, (cell23 W images s).1 = inr labels ∧
            argmax_axis1 prediction = inr labels.
Proof.
  intros Hpred Hc Hprint. destruct (argmax_axis1_total prediction Hc) as [labels Hl].
  exists labels. split; [|done].
  unfold cell23, predict, print, ext_pure, ext, lift, mbind, M_bind, mret, M_ret.
  rewrite Hpred. cbn [fst snd log fs raised]. rewrite Hl, Hprint. reflexivity.
Qed.

Lemma cell27_returns W s data image prediction :
  env_data W = Some data →
  np_array_float32 data = inr image →
  env_predict W (log s) image = inr prediction →
  columns prediction ≠ 0 → rows prediction ≠ [] →
  (∀ text, env_print W (log s ++ [Ev Predict None]) text = None) →
  ∃ label labels, (cell27 W s).1 = inr label ∧
                  argmax_axis1 prediction = inr labels ∧ labels !! 0 = Some label.
Proof.
  intros Hdata Himage Hpred Hc Hrows Hprint.
  destruct (argmax_axis1_total prediction Hc) as [labels Hl].
  pose proof (argmax_axis1_spec _ _ Hl) as [_ HF].
  destruct labels as [|label labels].
  { apply Forall2_nil_inv_r in HF. unfold row_lists in HF.
    by apply fmap_nil_inv in HF. }
  exists label, (label :: labels). split; [|done].
  unfold cell27, predict, print, ext_pure, ext, lift, raise,
    mbind, M_bind, mret, M_ret.
  rewrite Hdata, Himage, Hpred. cbn [fst snd log fs raised].
  rewrite Hl. unfold getitem. cbn [lookup list_lookup]. rewrite Hprint. reflexivity.
Qed.

(** C2. The labels are the argmax of what [predict] returned.  Cell 23:
    when the cell completes, [predictor.predict(images)] has returned an
    array and the labels are its [argmax(axis=1)], row by row.  Cell 27:
    the label is entry 0 of the [argmax(axis=1)] of what
    [predictor.predict(image)] returned for the drawn image, converted to
    float32, that is the argmax of row 0.  The argmax of a row is the first
    index of its largest entry (of its first NaN, if it has one).  Both
    cells do compute their labels: they complete when [predict] returns an
    array with a second axis that is not empty (and, for cell 27, with a
    row) and [print] returns. *)
Theorem predicted_label_is_argmax W :
  (∀ images s labels,
     (cell23 W images s).1 = inr labels →
     ∃ prediction,
       env_predict W (log s) images = inr prediction ∧
       argmax_axis1 prediction = inr labels ∧
       Forall2 is_argmax (row_lists prediction) labels) ∧
  (∀ s label,
     (cell27 W s).1 = inr label →
     ∃ data image prediction labels row,
       env_data W = Some data ∧
       np_array_float32 data = inr image ∧
       env_predict W (log s) image = inr prediction ∧
       argmax_axis1 prediction = inr labels ∧
       labels !! 0 = Some label ∧
       row_lists prediction !! 0 = Some row ∧ is_argmax row label) ∧
  (∀ images s prediction,
     env_predict W (log s) images = inr prediction →
     columns prediction ≠ 0 →
     (∀ text, env_print W (log s ++ [Ev Predict None]) text = None) →
     ∃ labels, (cell23 W images s).1 = inr labels ∧
               Forall2 is_argmax (row_lists prediction) labels) ∧
  (∀ s data image prediction,
     env_data W = Some data →
     np_array_float32 data = inr image →
     env_predict W (log s) image = inr prediction →
     columns prediction ≠ 0 → rows prediction ≠ [] →
     (∀ text, env_print W (log s ++ [Ev Predict None]) text = None) →
     ∃ label row, (cell27 W s).1 = inr label ∧
                  row_lists prediction !! 0 = Some row ∧ is_argmax row label).
Proof.
  assert (∀ prediction labels label,
            argmax_axis1 prediction = inr labels → labels !! 0 = Some label →
            ∃ row, row_lists prediction !! 0 = Some row ∧ is_argmax row label)
    as Hrow0.
  { intros prediction labels label [_ HF]%argmax_axis1_spec Hl.
    destruct (Forall2_lookup_r _ _ _ _ _ HF Hl) as (row & Hrow & Harg). eauto. }
  split_and!.
  - intros images s labels.
    change (wp (cell23 W images)
              (λ r _, r = inr labels →
                 ∃ prediction,
                   env_predict W (log s) images = inr prediction ∧
                   argmax_axis1 prediction = inr labels ∧
                   Forall2 is_argmax (row_lists prediction) labels) s).
    wp_exec. all: intros [= <-].
    eexists. split_and!; [done|done|]. by eapply argmax_axis1_spec.
  - intros s label.
    change (wp (cell27 W)
              (λ r _, r = inr label →
                 ∃ data image prediction labels row,
                   env_data W = Some data ∧
                   np_array_float32 data = inr image ∧
                   env_predict W (log s) image = inr prediction ∧
                   argmax_axis1 prediction = inr labels ∧
                   labels !! 0 = Some label ∧
                   row_lists prediction !! 0 = Some row ∧ is_argmax row label) s).
    wp_exec. all: intros [= <-].
    match goal with
    | H : argmax_axis1 ?p = inr ?l, H' : getitem ?l 0 = inr _ |- _ =>
        unfold getitem in H'; destruct (l !! 0) as [i|] eqn:Hi; [|done];
        injection H' as ->;
        destruct (Hrow0 _ _ _ H Hi) as (row & Hrow & Harg)
    end.
    eexists _, _, _, _, row. split_and!; done.
  - intros images s prediction Hpred Hc Hprint.
    destruct (cell23_returns W images s prediction Hpred Hc Hprint)
      as (labels & Hrun & Hl).
    exists labels. split; [done|]. by eapply argmax_axis1_spec.
  - intros s data image prediction Hdata Himage Hpred Hc Hrows Hprint.
    destruct (cell27_returns W s data image prediction Hdata Himage Hpred Hc
                Hrows Hprint) as (label & labels & Hrun & Hl & H0).
    destruct (Hrow0 _ _ _ Hl H0) as (row & Hrow & Harg).
    by exists label, row.
Qed.

(** Cell 23 in [demo_env], on two images, and cell 27 on the drawing of
    [demo_env]: both compute the label 7. *)
Lemma predicted_label_is_argmax_witness :
  (∃ prediction,
     env_predict (demo_env 0 7 no_fault) (log demo_state) [blank_image; blank_image]
     = inr prediction ∧
     argmax_axis1 prediction = inr [7; 7] ∧
     Forall2 is_argmax (row_lists prediction) [7; 7]) ∧
  (∃ label row,
     (cell27 (demo_env 0 7 no_fault) demo_state).1 = inr label ∧
     row_lists (always_seven [blank_image]) !! 0 = Some row ∧ is_argmax row label).
Proof.
  split.
  - apply (proj1 (predicted_label_is_argmax (demo_env 0 7 no_fault))
             [blank_image; blank_image] demo_state [7; 7]).
    vm_compute. reflexivity.
  - apply (proj2 (proj2 (proj2 (predicted_label_is_argmax (demo_env 0 7 no_fault))))
             demo_state [replicate 784 0%Q] [blank_image]
             (always_seven [blank_image])).
    + reflexivity.
    + vm_compute. reflexivity.
    + reflexivity.
    + vm_compute. discriminate.
    + vm_compute. discriminate.
    + intros text. reflexivity.
Defined.






Example sample_of_thirty :
  (sample_indices (demo_env 0 30 no_fault) (replicate 30 blank_image) demo_state).1
  = inr [1; 4; 7; 10; 13].
Proof. vm_compute. reflexivity. Qed.

(** * More of the notebook *)

(** ** Cell 7 and the file system *)

Lemma fs_wf_empty : fs_wf ∅.
Proof. intros p n q H. by rewrite lookup_empty in H. Qed.

Lemma makedirs_fs_wf (fault : option os_fault) (p : path) (fs : filesystem) :
  fs_wf fs → fs_wf (makedirs_fs fault p fs).2.
Proof.
  intros Hwf. destruct (makedirs_fs fault p fs) as [r fs'] eqn:E.
  apply (makedirs_fs_inv []) in E as (_ & H & _). by apply H.
Qed.

Lemma mkdir_subseteq (p : path) (fs fs' : filesystem) : mkdir p fs = inr fs' → fs ⊆ fs'.
Proof. intros (-> & Hp & _)%mkdir_inv. by apply insert_subseteq. Qed.

Lemma make_ancestors_subseteq (fault : option os_fault) (ancs : list path)
    (fs fs' : filesystem) (o : option exn) :
  make_ancestors fault ancs fs = (o, fs') → fs ⊆ fs'.
Proof.
  revert fs. induction ancs as [|a ancs IH]; intros fs; simpl.
  - by intros [= <- <-].
  - destruct (fs !! a) eqn:Ea; [by apply IH|].
    destruct (mkdir a fs) as [e|fs1] eqn:Em.
    + by intros [= <- <-].
    + destruct (strikes fault a); [by intros [= <- <-]|].
      intros H. etrans; [by eapply mkdir_subseteq|by apply IH].
Qed.

(** [os.makedirs] never changes or removes an entry that is there. *)
Lemma makedirs_fs_subseteq (fault : option os_fault) (p : path)
    (fs fs' : filesystem) (r : exn + ()) :
  makedirs_fs fault p fs = (r, fs') → fs ⊆ fs'.
Proof.
  unfold makedirs_fs.
  destruct (make_ancestors fault (ancestors p) fs) as [[e|] fs1] eqn:Ea.
  - intros [= <- <-]. by eapply make_ancestors_subseteq.
  - destruct (mkdir p fs1) as [e|fs2] eqn:Em;
      [|destruct fault as [f|]]; intros [= <- <-].
    + by eapply make_ancestors_subseteq.
    + by eapply make_ancestors_subseteq.
    + etrans; [by eapply make_ancestors_subseteq|by eapply mkdir_subseteq].
Qed.



Lemma write_file_frame (fault : option os_fault) (p : path)
    (fs fs' : filesystem) (r : exn + ()) (q : path) :
  write_file fault p fs = (r, fs') → q ≠ p → fs' !! q = fs !! q.
Proof.
  unfold write_file, write_at. intros H Hq.
  repeat case_match; simplify_eq; try done; by rewrite lookup_insert_ne.
Qed.

Lemma write_file_ok (fault : option os_fault) (p : path)
    (fs fs' : filesystem) (u : ()) :
  write_file fault p fs = (inr u, fs') → fs' !! p = Some File.
Proof.
  unfold write_file, write_at. intros H.
  repeat case_match; simplify_eq; by rewrite lookup_insert_eq.
Qed.











Lemma make_ancestors_skip (fault : option os_fault) (ancs : list path)
    (fs : filesystem) :
  (∀ a, a ∈ ancs → is_Some (fs !! a)) → make_ancestors fault ancs fs = (None, fs).
Proof.
  induction ancs as [|a ancs IH]; intros H; simpl; [done|].
  destruct (H a) as [n ->]; [left|]. apply IH. intros b Hb. apply H. by right.
Qed.




(** In a well-formed file system, everything above an entry is there. *)
Lemma ancestors_exist (fs : filesystem) (p : path) (n : node) :
  fs_wf fs → fs !! p = Some n → ∀ a, a ∈ ancestors p → fs !! a = Some Dir.
Proof.
  intros Hwf Hp a Ha. unfold ancestors in Ha.
  apply list_elem_of_fmap in Ha as (k & -> & Hk). apply elem_of_seq in Hk.
  assert (∃ d, length p = S k + d) as [d Hd] by (exists (length p - S k); lia).
  assert (1 ≤ k) as Hk1 by lia. clear Hk.
  revert p n Hp Hd. induction d as [|d IH]; intros p n Hp Hd.
  all: assert (parent p = Some (take (length p - 1) p)) as Hpar
    by (unfold parent; destruct p as [|x [|y p]]; simpl in Hd; [lia|lia|done]).
  all: pose proof (Hwf _ _ _ Hp Hpar) as Hq.
  - by replace k with (length p - 1) by lia.
  - assert (take k (take (length p - 1) p) = take k p) as <-.
    { rewrite take_take. f_equal. lia. }
    eapply IH; [done|]. rewrite length_take. lia.
Qed.

(** [os.makedirs] of what exists. *)
Lemma makedirs_fs_exists (p : path) (fs : filesystem) (n : node) :
  fs_wf fs → fs !! p = Some n → makedirs_fs None p fs = (inl FileExistsError, fs).
Proof.
  intros Hwf Hp. unfold makedirs_fs. rewrite make_ancestors_skip.
  - unfold mkdir. by rewrite Hp.
  - intros a Ha. exists Dir. by apply (ancestors_exist fs p n).
Qed.



Lemma makedirs_fs_ok_dir (fault : option os_fault) (p : path)
    (fs fs' : filesystem) (u : ()) :
  makedirs_fs fault p fs = (inr u, fs') → fs' !! p = Some Dir.
Proof.
  unfold makedirs_fs. destruct u.
  destruct (make_ancestors fault (ancestors p) fs) as [[e|] fs1]; [done|].
  destruct (mkdir p fs1) as [e|fs2] eqn:Em; [done|].
  destruct fault as [f|]; intros [= <-].
  apply mkdir_inv in Em as (-> & _ & _). by rewrite lookup_insert_eq.
Qed.

(** X4. When the body of the [try] of cell 7 is through, the two directories
    and the two archives are on disk: the uploads found them there. *)
Theorem staged_files_are_on_disk W s inputs s' :
  cell7_body W s = (inr inputs, s') →
  fs s' !! tmp_data_train = Some Dir ∧ fs s' !! tmp_data_test = Some Dir ∧
  fs s' !! train_npz = Some File ∧ fs s' !! test_npz = Some File.
Proof.
  intros Hrun.
  assert (wp (cell7_body W)
            (λ r s1, r = inr inputs →
               fs s1 !! tmp_data_train = Some Dir ∧ fs s1 !! tmp_data_test = Some Dir ∧
               fs s1 !! train_npz = Some File ∧ fs s1 !! test_npz = Some File) s) as H.
  { wp_exec. all: intros [= <-]. cbn [fs].
    match goal with
    | H1 : makedirs_fs _ (split_path "/tmp/data/train") _ = _,
      H2 : makedirs_fs _ (split_path "/tmp/data/test") _ = _,
      H3 : write_file _ (split_path "/tmp/data/train/train.npz") _ = _,
      H4 : write_file _ (split_path "/tmp/data/test/test.npz") _ = _ |- _ =>
        pose proof (makedirs_fs_ok_dir _ _ _ _ _ H1) as D1;
        pose proof (makedirs_fs_ok_dir _ _ _ _ _ H2) as D2;
        pose proof (makedirs_fs_subseteq _ _ _ _ _ H2) as S2;
        pose proof (write_file_ok _ _ _ _ _ H3) as F3;
        pose proof (write_file_ok _ _ _ _ _ H4) as F4;
        pose proof (λ q, write_file_frame _ _ _ _ _ q H3) as K3;
        pose proof (λ q, write_file_frame _ _ _ _ _ q H4) as K4
    end.
    unfold tmp_data_train, tmp_data_test, train_npz, test_npz.
    split_and!.
    - rewrite K4, K3 by discriminate. by eapply lookup_weaken.
    - rewrite K4, K3 by discriminate. done.
    - rewrite K4 by discriminate. done.
    - done. }
  apply wp_elim in H. rewrite Hrun in H. by apply H.
Qed.

(** The body of the [try] in [demo_env], on an empty disk. *)
Lemma staged_files_are_on_disk_witness :
  fs (cell7_body (demo_env 0 7 no_fault) demo_state).2 !! tmp_data_train = Some Dir ∧
  fs (cell7_body (demo_env 0 7 no_fault) demo_state).2 !! tmp_data_test = Some Dir ∧
  fs (cell7_body (demo_env 0 7 no_fault) demo_state).2 !! train_npz = Some File ∧
  fs (cell7_body (demo_env 0 7 no_fault) demo_state).2 !! test_npz = Some File.
Proof.
  apply (staged_files_are_on_disk (demo_env 0 7 no_fault) demo_state
           ("s3://bucket/notebook/chainer/mnist", "s3://bucket/notebook/chainer/mnist")).
  vm_compute. reflexivity.
Defined.

Lemma mkdir_below_dir (p q : path) (fs : filesystem) :
  fs !! p = None → parent p = Some q → fs !! q = Some Dir →
  mkdir p fs = inr (<[p := Dir]> fs).
Proof. intros Hp Hq Hd. unfold mkdir. by rewrite Hp, Hq, Hd. Qed.

Lemma makedirs_fs_below_dir (p q : path) (fs : filesystem) :
  (∀ a, a ∈ ancestors p → is_Some (fs !! a)) →
  fs !! p = None → parent p = Some q → fs !! q = Some Dir →
  makedirs_fs None p fs = (inr (), <[p := Dir]> fs).
Proof.
  intros Ha Hp Hq Hd. unfold makedirs_fs. rewrite make_ancestors_skip by done.
  unfold mkdir. by rewrite Hp, Hq, Hd.
Qed.

Lemma write_file_below_dir (p q : path) (fs : filesystem) :
  fs !! p = None → parent p = Some q → fs !! q = Some Dir →
  write_file None p fs = (inr (), <[p := File]> fs).
Proof. intros Hp Hq Hd. unfold write_file. by rewrite Hp, Hq, Hd. Qed.

(** The file-system calls of cell 7, one after the other, when /tmp is a
    directory and there is no /tmp/data. *)
Lemma staging_fs_steps (fs0 : filesystem) :
  fs_wf fs0 → fs0 !! ([""; "tmp"] : path) = Some Dir → fs0 !! tmp_data = None →
  makedirs_fs None tmp_data_train fs0
  = (inr (), <[tmp_data_train := Dir]> (<[tmp_data := Dir]> fs0)) ∧
  makedirs_fs None tmp_data_test
    (<[tmp_data_train := Dir]> (<[tmp_data := Dir]> fs0))
  = (inr (), with_dirs fs0) ∧
  write_file None train_npz (with_dirs fs0)
  = (inr (), <[train_npz := File]> (with_dirs fs0)) ∧
  write_file None test_npz (<[train_npz := File]> (with_dirs fs0))
  = (inr (), with_staged_files fs0).
Proof.
  intros Hwf Htmp Hnone.
  assert (fs0 !! ([""] : path) = Some Dir) as Hroot
    by by apply (Hwf [""; "tmp"] Dir).
  assert (∀ p : path, tmp_data `prefix_of` p → fs0 !! p = None) as Hbelow.
  { intros p Hp. destruct (decide (p = tmp_data)) as [->|Hne]; [done|].
    apply (nothing_below _ tmp_data); [done|discriminate|by rewrite Hnone|done|done]. }
  unfold with_staged_files, with_dirs. split_and!.
  - unfold makedirs_fs.
    change (ancestors tmp_data_train) with [[""]; [""; "tmp"]; tmp_data].
    cbn [make_ancestors strikes]. rewrite Hroot, Htmp, Hnone.
    rewrite (mkdir_below_dir tmp_data [""; "tmp"]) by done.
    rewrite (mkdir_below_dir tmp_data_train tmp_data); [done| |done|].
    + rewrite lookup_insert_ne by discriminate. apply Hbelow. by exists ["train"].
    + by rewrite lookup_insert_eq.
  - apply (makedirs_fs_below_dir _ tmp_data); [| |done|].
    + intros a Ha. apply list_elem_of_In in Ha. vm_compute in Ha.
      destruct Ha as [<-|[<-|[<-|[]]]].
      * rewrite !lookup_insert_ne by discriminate. by rewrite Hroot.
      * rewrite !lookup_insert_ne by discriminate. by rewrite Htmp.
      * rewrite lookup_insert_ne by discriminate.
        change [""; "tmp"; "data"] with tmp_data. by rewrite lookup_insert_eq.
    + rewrite !lookup_insert_ne by discriminate. apply Hbelow. by exists ["test"].
    + rewrite lookup_insert_ne by discriminate. by rewrite lookup_insert_eq.
  - apply (write_file_below_dir _ tmp_data_train); [|done|].
    + rewrite !lookup_insert_ne by discriminate.
      apply Hbelow. by exists ["train"; "train.npz"].
    + rewrite lookup_insert_ne by discriminate. by rewrite lookup_insert_eq.
  - apply (write_file_below_dir _ tmp_data_test); [|done|].
    + rewrite !lookup_insert_ne by discriminate.
      apply Hbelow. by exists ["test"; "test.npz"].
    + rewrite lookup_insert_ne by discriminate. by rewrite lookup_insert_eq.
Qed.

(** The state in which the body of the [try] ends, when nothing goes wrong
    and /tmp/data is not there yet. *)

Lemma split_tmp_data_train : split_path "/tmp/data/train" = tmp_data_train.
Proof. vm_compute. reflexivity. Qed.
Lemma split_tmp_data_test : split_path "/tmp/data/test" = tmp_data_test.
Proof. vm_compute. reflexivity. Qed.
Lemma split_train_npz : split_path "/tmp/data/train/train.npz" = train_npz.
Proof. vm_compute. reflexivity. Qed.
Lemma split_test_npz : split_path "/tmp/data/test/test.npz" = test_npz.
Proof. vm_compute. reflexivity. Qed.

Lemma staging_fs_steps_ex (fs0 : filesystem) :
  fs_wf fs0 → fs0 !! ([""; "tmp"] : path) = Some Dir → fs0 !! tmp_data = None →
  ∃ A B C : filesystem,
    makedirs_fs None (split_path "/tmp/data/train") fs0 = (inr (), A) ∧
    makedirs_fs None (split_path "/tmp/data/test") A = (inr (), B) ∧
    write_file None (split_path "/tmp/data/train/train.npz") B = (inr (), C) ∧
    write_file None (split_path "/tmp/data/test/test.npz") C
    = (inr (), with_staged_files fs0).
Proof.
  intros Hwf Htmp Hnone.
  destruct (staging_fs_steps fs0 Hwf Htmp Hnone) as (H1 & H2 & H3 & H4).
  rewrite split_tmp_data_train, split_tmp_data_test, split_train_npz, split_test_npz.
  eexists _, _, _. split_and!; [exact H1|exact H2|exact H3|exact H4].
Qed.

Lemma cell7_body_clean W s :
  fs_wf (fs s) → fs s !! ([""; "tmp"] : path) = Some Dir → fs s !! tmp_data = None →
  no_os_fault W → uploads_return W →
  ∃ inputs, (cell7_body W s).1 = inr inputs ∧
            fs (cell7_body W s).2 = with_staged_files (fs s).
Proof.
  intros Hwf Htmp Hnone Hnf Hup.
  destruct (staging_fs_steps_ex (fs s) Hwf Htmp Hnone) as (A & B & C & H1 & H2 & H3 & H4).
  remember (with_staged_files (fs s)) as D eqn:HD. clear HD.
  apply (wp_elim (cell7_body W) (λ r s1, ∃ inputs, r = inr inputs ∧ fs s1 = D) s).
  wp_exec.
  all: repeat match goal with
    | E : context [the_fault _ _ _] |- _ =>
        rewrite (the_fault_None _ _ _ (Hnf _ _)) in E
    | E : makedirs_fs None (split_path "/tmp/data/train") _ = (?r, ?f) |- _ =>
        is_var f; lazymatch r with inr () => fail | _ => rewrite H1 in E end
    | E : makedirs_fs None (split_path "/tmp/data/test") _ = (?r, ?f) |- _ =>
        is_var f; lazymatch r with inr () => fail | _ => rewrite H2 in E end
    | E : write_file None (split_path "/tmp/data/train/train.npz") _ = (?r, ?f) |- _ =>
        is_var f; lazymatch r with inr () => fail | _ => rewrite H3 in E end
    | E : write_file None (split_path "/tmp/data/test/test.npz") _ = (?r, ?f) |- _ =>
        is_var f; lazymatch r with inr () => fail | _ => rewrite H4 in E end
    | E : (_, _) = (inl _, _) |- _ => discriminate E
    | E : (_, _) = (inr ?u, ?f) |- _ => is_var u; is_var f; injection E as _ <-
    | E : env_upload_data _ ?h ?p ?k = inl _ |- _ =>
        let Hu := fresh in
        destruct (Hup h p k) as [? Hu]; rewrite Hu in E; discriminate E
    end.
  eexists. split; reflexivity.
Qed.

(** X5. Staging in a clean /tmp.  When /tmp is a directory without a
    /tmp/data, the file-system calls are not disturbed and [upload_data]
    returns, cell 7 completes and leaves the file system exactly as it found
    it. *)
Theorem staging_restores_the_file_system W train test s :
  fs_wf (fs s) → fs s !! ([""; "tmp"] : path) = Some Dir → fs s !! tmp_data = None →
  no_os_fault W → uploads_return W →
  (∃ st, (cell7 W train test s).1 = inr st) ∧
  fs (cell7 W train test s).2 = fs s.
Proof.
  intros Hwf Htmp Hnone Hnf Hup.
  destruct (cell7_body_clean W s Hwf Htmp Hnone Hnf Hup) as (inputs & Hr & Hfs).
  assert (∀ p : path, tmp_data `prefix_of` p → fs s !! p = None) as Hbelow.
  { intros p Hp. destruct (decide (p = tmp_data)) as [->|Hne]; [done|].
    apply (nothing_below _ tmp_data); [done|discriminate|by rewrite Hnone|done|done]. }
  rewrite cell7_unfold. cbn zeta. rewrite (the_fault_None _ _ _ (Hnf _ _)).
  cbn [fst snd fs]. rewrite Hr, Hfs.
  unfold rmtree_fs, with_staged_files, with_dirs.
  rewrite !lookup_insert_ne by discriminate.
  rewrite lookup_insert_eq. cbn [fst snd]. split; [by eexists|].
  apply map_eq. intros q.
  destruct (decide (tmp_data `prefix_of` q)) as [Hq|Hq].
  - rewrite (Hbelow q Hq). apply map_lookup_filter_None. right.
    intros n _. simpl. tauto.
  - assert (∀ p : path, tmp_data `prefix_of` p → p ≠ q) as Hne by (by intros p Hp ->).
    assert (tmp_data ≠ q ∧ tmp_data_train ≠ q ∧ tmp_data_test ≠ q ∧
            train_npz ≠ q ∧ test_npz ≠ q) as (N1 & N2 & N3 & N4 & N5).
    { split_and!; apply Hne; [done|by exists ["train"]|by exists ["test"]
        |by exists ["train"; "train.npz"]|by exists ["test"; "test.npz"]]. }
    destruct (fs s !! q) as [n|] eqn:E.
    + apply map_lookup_filter_Some. split; [|done].
      rewrite (lookup_insert_ne _ _ _ _ N5), (lookup_insert_ne _ _ _ _ N4),
        (lookup_insert_ne _ _ _ _ N3), (lookup_insert_ne _ _ _ _ N2),
        (lookup_insert_ne _ _ _ _ N1). exact E.
    + apply map_lookup_filter_None. left.
      rewrite (lookup_insert_ne _ _ _ _ N5), (lookup_insert_ne _ _ _ _ N4),
        (lookup_insert_ne _ _ _ _ N3), (lookup_insert_ne _ _ _ _ N2),
        (lookup_insert_ne _ _ _ _ N1). exact E.
Qed.

(** Cell 7 in [demo_env], on a disk with / and /tmp. *)
Lemma staging_restores_the_file_system_witness :
  (∃ st, (cell7 (demo_env 0 7 no_fault) (blank_dataset 3) (blank_dataset 7)
            {| fs := tmp_only; log := [] |}).1 = inr st) ∧
  fs (cell7 (demo_env 0 7 no_fault) (blank_dataset 3) (blank_dataset 7)
        {| fs := tmp_only; log := [] |}).2 = tmp_only.
Proof.
  apply (staging_restores_the_file_system (demo_env 0 7 no_fault) (blank_dataset 3)
           (blank_dataset 7) {| fs := tmp_only; log := [] |}).
  - apply makedirs_fs_wf, fs_wf_empty.
  - vm_compute. reflexivity.
  - vm_compute. reflexivity.
  - intros h c. reflexivity.
  - intros h p k. eexists. reflexivity.
Defined.

(** ** Cell 15, run again *)

Lemma split_output_dir : split_path "output/single_machine_mnist" = output_dir.
Proof. vm_compute. reflexivity. Qed.

(** X6. Cell 15 can be run again.  When output/single_machine_mnist is
    there already, [os.makedirs] raises [FileExistsError], the file system
    stays as it is, and the cell goes on to ask for the training job. *)
Theorem cell15_can_be_rerun W sagemaker_session est job s n :
  fs_wf (fs s) →
  fs s !! output_dir = Some n →
  env_os_fault W (log s) (Makedirs "output/single_machine_mnist") = None →
  latest_training_job est = Some job →
  ∃ o rest,
    emitted (cell15 W sagemaker_session est) s
    = Ev (Makedirs "output/single_machine_mnist") (Some FileExistsError)
      :: Ev (DescribeTrainingJob job) o :: rest.
Proof.
  intros Hwf Hn Hfault Hjob.
  change (wp (cell15 W sagemaker_session est)
            (λ r s1, ∃ o rest,
               drop (length (log s)) (log s1)
               = Ev (Makedirs "output/single_machine_mnist") (Some FileExistsError)
                 :: Ev (DescribeTrainingJob job) o :: rest) s).
  wp_exec.
  all: match goal with
       | E : context [the_fault _ _ _] |- _ =>
           rewrite (the_fault_None _ _ _ Hfault), split_output_dir in E;
           rewrite (makedirs_fs_exists _ _ _ Hwf Hn) in E
       end.
  all: match goal with
       | E : (inl _, _) = (inr _, _) |- _ => discriminate E
       | E : (inl _, _) = (inl _, _) |- _ => injection E as <- <-
       end.
  all: try match goal with H : is_OSError FileExistsError = false |- _ =>
             discriminate H end.
  all: try discriminate Hjob.
  all: injection Hjob as ->.
  all: emitted_norm; eexists _, _; reflexivity.
Qed.

(** Cell 15 in [demo_env], the directory being there. *)
Lemma cell15_can_be_rerun_witness :
  ∃ o rest,
    emitted (cell15 (demo_env 0 7 no_fault) {| region_name := "us-west-2" |}
               demo_estimator)
      {| fs := with_output_dir; log := [] |}
    = Ev (Makedirs "output/single_machine_mnist") (Some FileExistsError)
      :: Ev (DescribeTrainingJob "job-1") o :: rest.
Proof.
  apply (cell15_can_be_rerun (demo_env 0 7 no_fault) {| region_name := "us-west-2" |}
           demo_estimator "job-1" {| fs := with_output_dir; log := [] |} Dir).
  - apply makedirs_fs_wf, fs_wf_empty.
  - vm_compute. reflexivity.
  - vm_compute. reflexivity.
  - reflexivity.
Defined.

(** ** Where the arguments of the service calls come from *)

Lemma all_calls_split P acc pre ev rest :
  all_calls P acc (pre ++ ev :: rest) → P (acc ++ pre) (ev_call ev).
Proof.
  revert acc. induction pre as [|x pre IH]; intros acc; simpl.
  - rewrite app_nil_r. by intros [H _].
  - intros [_ H]. apply IH in H. by rewrite <- app_assoc in H.
Qed.

Ltac each_call :=
  cbn [all_calls ev_call data_flow log];
  repeat match goal with |- _ ∧ _ => split end;
  try exact I.

Lemma run_data_flow W fs0 : all_calls (data_flow W) [] (trace (run W fs0)).
Proof.
  change (wp (notebook W) (λ r s, all_calls (data_flow W) [] (log s))
            {| fs := fs0; log := [] |}).
  wp_exec.
  all: each_call.
  all: cbn [app].
  all: try (repeat first [apply list_elem_of_here|apply list_elem_of_further]).
  all: lazymatch goal with
       | |- ∃ h rest, ?pre = _ ∧ _ =>
           exists (take 8 pre), (drop 10 pre); cbn [take drop];
           split_and!; [reflexivity|eassumption|eassumption]
       | |- ∃ h est a b rest, ?pre = _ ∧ _ =>
           exists (take 15 pre); eexists _, _, _, (drop 16 pre); cbn [take drop];
           split; [reflexivity|eassumption]
       end.
Qed.

Lemma run_end W fs0 :
  existsb (returned is_DeleteEndpoint) (trace (run W fs0))
  = match outcome (run W fs0) with inr _ => true | inl _ => false end.
Proof.
  change (wp (notebook W)
            (λ r s, existsb (returned is_DeleteEndpoint) (log s)
                    = match r with inr _ => true | inl _ => false end)
            {| fs := fs0; log := [] |}).
  wp_exec.
  all: reflexivity.
Qed.

(** X7. [fit] is given the two URIs that [upload_data] returned, the one for
    /tmp/data/train as the 'train' channel and the one for /tmp/data/test as
    the 'test' channel. *)
Theorem fit_gets_the_uploaded_inputs W fs0 pre a b o rest :
  trace (run W fs0) = pre ++ Ev (Fit a b) o :: rest →
  ∃ h mid,
    pre = h ++ Ev (UploadData "/tmp/data/train" "notebook/chainer/mnist") None
            :: Ev (UploadData "/tmp/data/test" "notebook/chainer/mnist") None
            :: mid ∧
    env_upload_data W h "/tmp/data/train" "notebook/chainer/mnist" = inr a ∧
    env_upload_data W
      (h ++ [Ev (UploadData "/tmp/data/train" "notebook/chainer/mnist") None])
      "/tmp/data/test" "notebook/chainer/mnist" = inr b.
Proof.
  intros Ht. pose proof (run_data_flow W fs0) as H.
  rewrite Ht in H. by apply all_calls_split in H.
Qed.

(** The run in [demo_env]. *)
Lemma fit_gets_the_uploaded_inputs_witness :
  ∃ h mid,
    take 15 (trace (run (demo_env 0 7 no_fault) ∅))
    = h ++ Ev (UploadData "/tmp/data/train" "notebook/chainer/mnist") None
        :: Ev (UploadData "/tmp/data/test" "notebook/chainer/mnist") None
        :: mid ∧
    env_upload_data (demo_env 0 7 no_fault) h
      "/tmp/data/train" "notebook/chainer/mnist"
    = inr "s3://bucket/notebook/chainer/mnist" ∧
    env_upload_data (demo_env 0 7 no_fault)
      (h ++ [Ev (UploadData "/tmp/data/train" "notebook/chainer/mnist") None])
      "/tmp/data/test" "notebook/chainer/mnist"
    = inr "s3://bucket/notebook/chainer/mnist".
Proof.
  apply (fit_gets_the_uploaded_inputs (demo_env 0 7 no_fault) ∅ _ _ _ None
           (drop 16 (trace (run (demo_env 0 7 no_fault) ∅)))).
  vm_compute. reflexivity.
Defined.

(** X8. [describe_training_job] is asked about the job that [fit] has
    returned: the estimator that reaches cell 15 always has its training
    job. *)
Theorem describe_asks_about_the_fitted_job W fs0 pre name o rest :
  trace (run W fs0) = pre ++ Ev (DescribeTrainingJob name) o :: rest →
  ∃ h est a b mid,
    pre = h ++ Ev (Fit a b) None :: mid ∧ env_fit W h est a b = inr name.
Proof.
  intros Ht. pose proof (run_data_flow W fs0) as H.
  rewrite Ht in H. by apply all_calls_split in H.
Qed.

(** The run in [demo_env]. *)
Lemma describe_asks_about_the_fitted_job_witness :
  ∃ h est a b mid,
    take 17 (trace (run (demo_env 0 7 no_fault) ∅)) = h ++ Ev (Fit a b) None :: mid ∧
    env_fit (demo_env 0 7 no_fault) h est a b = inr "job-1".
Proof.
  apply (describe_asks_about_the_fitted_job (demo_env 0 7 no_fault) ∅ _ _ None
           (drop 18 (trace (run (demo_env 0 7 no_fault) ∅)))).
  vm_compute. reflexivity.
Defined.

(** X9. The endpoint is deployed on the instance type that was printed and
    that the estimator was constructed with. *)
Theorem deploy_on_the_training_instance_type W fs0 pre instance_type o rest :
  trace (run W fs0) = pre ++ Ev (Deploy instance_type) o :: rest →
  Ev (PrintLine ("Instance type = " +:+ instance_type)) None ∈ pre ∧
  Ev (Chainer instance_type) None ∈ pre.
Proof.
  intros Ht. pose proof (run_data_flow W fs0) as H.
  rewrite Ht in H. by apply all_calls_split in H.
Qed.

(** The run in [demo_env] without a GPU. *)
Lemma deploy_on_the_training_instance_type_witness :
  Ev (PrintLine ("Instance type = " +:+ "local")) None
    ∈ take 23 (trace (run (demo_env 1 7 no_fault) ∅)) ∧
  Ev (Chainer "local") None ∈ take 23 (trace (run (demo_env 1 7 no_fault) ∅)).
Proof.
  apply (deploy_on_the_training_instance_type (demo_env 1 7 no_fault) ∅ _ _ None
           (drop 24 (trace (run (demo_env 1 7 no_fault) ∅)))).
  vm_compute. reflexivity.
Defined.

(** X10. [delete_endpoint] returns in the runs that complete and in no
    other: a run that an exception ends leaves whatever it deployed
    running. *)
Theorem endpoint_deleted_only_by_a_complete_run W fs0 :
  Ev DeleteEndpoint None ∈ trace (run W fs0) ↔ ∃ r, outcome (run W fs0) = inr r.
Proof.
  pose proof (run_end W fs0) as H.
  assert (existsb (returned is_DeleteEndpoint) (trace (run W fs0)) = true
          ↔ Ev DeleteEndpoint None ∈ trace (run W fs0)) as <-.
  { rewrite existsb_exists. split.
    - intros ([c o] & Hin%list_elem_of_In & Hr). unfold returned in Hr. simpl in Hr.
      apply andb_true_iff in Hr as [Hc Ho]. apply bool_decide_eq_true in Ho.
      destruct c; try discriminate Hc. by subst o.
    - intros Hin. exists (Ev DeleteEndpoint None). by apply list_elem_of_In in Hin. }
  rewrite H. destruct (outcome (run W fs0)) as [e|r].
  - split; [done|]. by intros [? [=]].
  - split; [by eexists|done].
Qed.

(** ** How the cells of the predictions fail *)

(** ** Indexing *)

Lemma take_indices_inv {A} (a : list A) (indices : list nat) (xs : list A) :
  take_indices a indices = inr xs →
  Forall2 (λ i x, a !! i = Some x) indices xs.
Proof.
  revert xs. induction indices as [|i rest IH]; intros xs;
    unfold take_indices; fold (@take_indices A).
  - intros [= <-]. constructor.
  - destruct (a !! i) as [x|] eqn:Hi; [|intros [=]].
    destruct (take_indices a rest) as [e|ys]; [intros [=]|].
    intros [= <-]. constructor; [done|by apply IH].
Qed.

Lemma take_indices_in_bounds {A} (a : list A) (indices : list nat) :
  (∀ i, i ∈ indices → i < length a) → ∃ xs, take_indices a indices = inr xs.
Proof.
  induction indices as [|i rest IH]; intros H;
    unfold take_indices; fold (@take_indices A).
  - by eexists.
  - destruct (lookup_lt_is_Some_2 a i) as [x ->]; [apply H; left|].
    destruct IH as [xs ->]; [intros j Hj; apply H; by right|]. by eexists.
Qed.

(** [np.array] raises for rows of different lengths, and only for them. *)
Lemma np_array_error (data : list (list Q)) (e : exn) :
  np_array_float32 data = inl e →
  e = ValueError ∧
  ∃ row1 row2, row1 ∈ data ∧ row2 ∈ data ∧ length row1 ≠ length row2.
Proof.
  unfold np_array_float32. destruct data as [|row data]; [intros [=]|].
  case_bool_decide as Hall; [intros [=]|]. intros [= <-]. split; [done|].
  apply not_Forall_Exists in Hall; [|apply _].
  apply Exists_exists in Hall as (row2 & Hin & Hlen).
  exists row2, row. split_and!; [done|left|done].
Qed.

Lemma sampled_in_bounds rnd patience (n : nat) (indices : list nat) :
  random_sample rnd patience (py_range (Z.of_nat n - 1)) 5 = inr indices →
  length indices = 5 ∧ ∀ i, i ∈ indices → i < n.
Proof.
  intros H. pose proof (random_sample_spec rnd patience (Z.of_nat n - 1) 5) as Hs.
  rewrite H in Hs. destruct Hs as (_ & Hlen & _ & Hin). split; [done|].
  intros i Hi. apply Hin in Hi. lia.
Qed.

Lemma getitem_in_bounds {A} (a : list A) (i : nat) (e : exn) :
  i < length a → getitem a i = inl e → False.
Proof.
  intros Hi. unfold getitem. by destruct (lookup_lt_is_Some_2 a i Hi) as [x ->].
Qed.

Lemma getitem_inv {A} (a : list A) (i : nat) (x : A) :
  getitem a i = inr x → a !! i = Some x.
Proof. unfold getitem. destruct (a !! i); by intros [= <-]. Qed.

Lemma reshape_error (img : image) (e : exn) :
  reshape_28_28 img = inl e → e = ValueError ∧ length img ≠ 784.
Proof. unfold reshape_28_28. case_bool_decide; [done|]. by intros [= <-]. Qed.

(** ** Cell 21 *)

(** What cell 21 knows once the two arrays are indexed. *)
Lemma cell21_indexed W (st : staged) h (indices : list nat)
    (images : list image) (labels : list Z) :
  random_sample (env_random W h) (env_patience W)
    (py_range (Z.of_nat (length (test_images st)) - 1)) 5 = inr indices →
  take_indices (test_images st) indices = inr images →
  take_indices (test_labels st) indices = inr labels →
  length images = 5 ∧ length labels = 5 ∧
  ∀ img, img ∈ images → img ∈ test_images st.
Proof.
  intros [Hlen _]%sampled_in_bounds Hi%take_indices_inv Hl%take_indices_inv.
  split_and!.
  - by rewrite <- (Forall2_length _ _ _ Hi).
  - by rewrite <- (Forall2_length _ _ _ Hl).
  - intros img [k Hk]%list_elem_of_lookup_1.
    destruct (Forall2_lookup_r _ _ _ _ _ Hi Hk) as (i & _ & Hin).
    by eapply list_elem_of_lookup_2.
Qed.

(** X11. Cell 21 indexes within bounds.  When the test set has as many labels
    as images, an exception that ends cell 21 was raised by one of its calls
    ([random.sample] or pyplot), or it is the [ValueError] of [reshape] for
    a test image that has not 784 pixels: an [IndexError] of its own
    indexing does not occur. *)
Theorem cell21_indexes_within_bounds W st s e :
  length (test_labels st) = length (test_images st) →
  (cell21 W st s).1 = inl e →
  raised_by_a_call (cell21 W st) s e ∨
  (e = ValueError ∧ ∃ img, img ∈ test_images st ∧ length img ≠ 784).
Proof.
  intros Hlen.
  change (wp (cell21 W st)
            (λ r s1, r = inl e →
               (∃ pre c, drop (length (log s)) (log s1) = pre ++ [Ev c (Some e)]) ∨
               (e = ValueError ∧ ∃ img, img ∈ test_images st ∧ length img ≠ 784)) s).
  wp_exec.
  all: intros Hr; try discriminate Hr; injection Hr as ->.
  all: try (left; emitted_norm;
            lazymatch goal with
            | |- ∃ pre c, ?l = _ =>
                exists (take (length l - 1) l); eexists; reflexivity
            end).
  all: try match goal with
    | E : random_sample _ _ _ _ = inr ?l, H : take_indices (test_images _) ?l = inl _ |- _ =>
        apply sampled_in_bounds in E as [_ E];
        destruct (take_indices_in_bounds (test_images st) l E) as [? Hx];
        rewrite Hx in H; discriminate H
    | E : random_sample _ _ _ _ = inr ?l, H : take_indices (test_labels _) ?l = inl _ |- _ =>
        apply sampled_in_bounds in E as [_ E]; rewrite <- Hlen in E;
        destruct (take_indices_in_bounds (test_labels st) l E) as [? Hx];
        rewrite Hx in H; discriminate H
    end.
  all: match goal with
    | E : random_sample _ _ _ _ = inr _, Hi : take_indices (test_images _) _ = inr _,
      Hl : take_indices (test_labels _) _ = inr _ |- _ =>
        destruct (cell21_indexed _ _ _ _ _ _ E Hi Hl) as (Li & Ll & Hin)
    end.
  all: try match goal with
    | H : getitem _ _ = inl _ |- _ =>
        exfalso; apply getitem_in_bounds in H; [done|lia]
    end.
  all: match goal with
    | H : reshape_28_28 ?img = inl _, G : getitem _ _ = inr ?img |- _ =>
        apply reshape_error in H as [-> H]; right; split; [done|];
        exists img; split; [|done];
        apply Hin; apply getitem_inv in G; by eapply list_elem_of_lookup_2
    end.
Qed.

(** X12. What cell 21 shows.  When the cell completes, [random.sample] has
    returned five indices, the images and labels are the test images and
    labels at these indices, every one of the images has 784 pixels, and
    besides the sampling the cell has made the pyplot calls for the
    subplots 1 to 5, in order. *)
Theorem cell21_shows_the_sampled_images W st s images labels :
  (cell21 W st s).1 = inr (images, labels) →
  ∃ indices,
    random_sample (env_random W (log s)) (env_patience W)
      (py_range (Z.of_nat (length (test_images st)) - 1)) 5 = inr indices ∧
    Forall2 (λ i img, test_images st !! i = Some img) indices images ∧
    Forall2 (λ i label, test_labels st !! i = Some label) indices labels ∧
    Forall (λ img, length img = 784) images ∧
    emitted (cell21 W st) s
    = (λ c, Ev c None)
        <$> RandomSample (Z.of_nat (length (test_images st)) - 1) 5 :: plot_calls.
Proof.
  change (wp (cell21 W st)
            (λ r s1, r = inr (images, labels) →
               ∃ indices,
                 random_sample (env_random W (log s)) (env_patience W)
                   (py_range (Z.of_nat (length (test_images st)) - 1)) 5
                 = inr indices ∧
                 Forall2 (λ i img, test_images st !! i = Some img) indices images ∧
                 Forall2 (λ i label, test_labels st !! i = Some label) indices labels ∧
                 Forall (λ img, length img = 784) images ∧
                 drop (length (log s)) (log s1)
                 = (λ c, Ev c None)
                     <$> RandomSample (Z.of_nat (length (test_images st)) - 1) 5
                         :: plot_calls) s).
  wp_exec.
  all: intros Hr; try discriminate Hr; injection Hr as <- <-.
  match goal with
  | E : random_sample _ _ _ _ = inr ?l, Hi : take_indices (test_images _) _ = inr _,
    Hl : take_indices (test_labels _) _ = inr _ |- _ =>
      pose proof (cell21_indexed _ _ _ _ _ _ E Hi Hl) as (Li & _ & _);
      apply take_indices_inv in Hi, Hl; exists l
  end.
  split_and!; [done|done|done| |emitted_norm; reflexivity].
  match goal with
  | |- Forall _ ?imgs =>
      destruct imgs as [|i0' [|i1' [|i2' [|i3' [|i4' [|]]]]]]; try discriminate Li
  end.
  repeat match goal with
    | G : getitem _ _ = inr _ |- _ => apply getitem_inv in G; simpl in G
    | G : Some _ = Some _ |- _ => injection G as <-
    | H : reshape_28_28 _ = inr _ |- _ =>
        unfold reshape_28_28 in H; case_bool_decide; [clear H|discriminate H]
    end.
  repeat constructor; assumption.
Qed.

(** Cell 21 in [demo_env], on seven test images. *)
Lemma cell21_shows_the_sampled_images_witness :
  ∃ indices,
    random_sample (env_random (demo_env 0 7 no_fault) (log demo_state))
      (env_patience (demo_env 0 7 no_fault))
      (py_range (Z.of_nat (length (test_images (demo_staged 7))) - 1)) 5
    = inr indices ∧
    Forall2 (λ i img, test_images (demo_staged 7) !! i = Some img) indices
      (replicate 5 blank_image) ∧
    Forall2 (λ i label, test_labels (demo_staged 7) !! i = Some label) indices
      (replicate 5 0%Z) ∧
    Forall (λ img, length img = 784) (replicate 5 blank_image) ∧
    emitted (cell21 (demo_env 0 7 no_fault) (demo_staged 7)) demo_state
    = (λ c, Ev c None)
        <$> RandomSample (Z.of_nat (length (test_images (demo_staged 7))) - 1) 5
            :: plot_calls.
Proof.
  apply (cell21_shows_the_sampled_images (demo_env 0 7 no_fault) (demo_staged 7)
           demo_state (replicate 5 blank_image) (replicate 5 0%Z)).
  vm_compute. reflexivity.
Defined.

(** Cell 21 on test images of 3 pixels. *)
Lemma cell21_indexes_within_bounds_witness :
  raised_by_a_call (cell21 (demo_env 0 7 no_fault) staged_with_a_short_image)
    demo_state ValueError ∨
  (ValueError = ValueError ∧
   ∃ img, img ∈ test_images staged_with_a_short_image ∧ length img ≠ 784).
Proof.
  apply (cell21_indexes_within_bounds (demo_env 0 7 no_fault)
           staged_with_a_short_image demo_state ValueError).
  - reflexivity.
  - vm_compute. reflexivity.
Defined.

(** ** Cells 23 and 27 *)

(** X13. How cell 23 fails.  An exception that ends cell 23 was raised by
    [predict] or by [print], or it is the [ValueError] of [argmax(axis=1)]
    for a prediction of shape (n, 0) - also when n is 0 -, and then nothing
    was printed. *)
Theorem cell23_failures W images s e :
  (cell23 W images s).1 = inl e →
  raised_by_a_call (cell23 W images) s e ∨
  (e = ValueError ∧
   ∃ prediction, env_predict W (log s) images = inr prediction ∧
     columns prediction = 0 ∧ emitted (cell23 W images) s = [Ev Predict None]).
Proof.
  change (wp (cell23 W images)
            (λ r s1, r = inl e →
               (∃ pre c, drop (length (log s)) (log s1) = pre ++ [Ev c (Some e)]) ∨
               (e = ValueError ∧
                ∃ prediction, env_predict W (log s) images = inr prediction ∧
                  columns prediction = 0 ∧
                  drop (length (log s)) (log s1) = [Ev Predict None])) s).
  wp_exec.
  all: intros Hr; try discriminate Hr; injection Hr as ->.
  all: emitted_norm.
  - left. by exists [], Predict.
  - match goal with
    | H : argmax_axis1 _ = inl _ |- _ => apply argmax_axis1_error in H as [-> H]
    end.
    right. split; [done|]. eexists. by split_and!.
  - left. by eexists [_], _.
Qed.

(** Cell 23 when the endpoint answers with an array of shape (1, 0). *)
Lemma cell23_failures_witness :
  raised_by_a_call (cell23 env_empty_row [blank_image]) demo_state ValueError ∨
  (ValueError = ValueError ∧
   ∃ prediction,
     env_predict env_empty_row (log demo_state) [blank_image] = inr prediction ∧
     columns prediction = 0 ∧
     emitted (cell23 env_empty_row [blank_image]) demo_state = [Ev Predict None]).
Proof.
  apply (cell23_failures env_empty_row [blank_image] demo_state ValueError).
  vm_compute. reflexivity.
Defined.

(** X14. How cell 27 fails.  An exception that ends cell 27 is the
    [NameError] for [data] when nothing was drawn, or the [ValueError] of
    [np.array] for rows of different lengths (and then no call was made),
    or it was raised by [predict] or by [print], or it comes from the
    prediction: the [ValueError] of [argmax(axis=1)] for an array of shape
    (n, 0), or the [IndexError] of [[0]] for an array without rows whose
    second axis is not empty. *)
Theorem cell27_failures W s e :
  (cell27 W s).1 = inl e →
  (e = NameError ∧ env_data W = None ∧ emitted (cell27 W) s = []) ∨
  (e = ValueError ∧ emitted (cell27 W) s = [] ∧
   ∃ data row1 row2, env_data W = Some data ∧
     row1 ∈ data ∧ row2 ∈ data ∧ length row1 ≠ length row2) ∨
  raised_by_a_call (cell27 W) s e ∨
  (∃ data image prediction,
     env_data W = Some data ∧ np_array_float32 data = inr image ∧
     env_predict W (log s) image = inr prediction ∧
     emitted (cell27 W) s = [Ev Predict None] ∧
     (e = ValueError ∧ columns prediction = 0
      ∨ e = IndexError ∧ columns prediction ≠ 0 ∧ rows prediction = [])).
Proof.
  change (wp (cell27 W)
            (λ r s1, r = inl e →
               (e = NameError ∧ env_data W = None ∧
                drop (length (log s)) (log s1) = []) ∨
               (e = ValueError ∧ drop (length (log s)) (log s1) = [] ∧
                ∃ data row1 row2, env_data W = Some data ∧
                  row1 ∈ data ∧ row2 ∈ data ∧ length row1 ≠ length row2) ∨
               (∃ pre c, drop (length (log s)) (log s1) = pre ++ [Ev c (Some e)]) ∨
               (∃ data image prediction,
                  env_data W = Some data ∧ np_array_float32 data = inr image ∧
                  env_predict W (log s) image = inr prediction ∧
                  drop (length (log s)) (log s1) = [Ev Predict None] ∧
                  (e = ValueError ∧ columns prediction = 0
                   ∨ e = IndexError ∧ columns prediction ≠ 0
                     ∧ rows prediction = []))) s).
  wp_exec.
  all: intros Hr; try discriminate Hr; injection Hr as ->.
  all: emitted_norm.
  - match goal with
    | H : np_array_float32 _ = inl _ |- _ =>
        apply np_array_error in H as (-> & row1 & row2 & H)
    end.
    right. left. split_and!; [done|by rewrite drop_all|]. by eexists _, row1, row2.
  - right. right. left. by exists [], Predict.
  - match goal with
    | H : argmax_axis1 _ = inl _ |- _ => apply argmax_axis1_error in H as [-> H]
    end.
    do 3 right. eexists _, _, _. split_and!; [done|done|done|done|by left].
  - match goal with
    | H : argmax_axis1 ?p = inr ?l, G : getitem ?l 0 = inl _ |- _ =>
        apply argmax_axis1_spec in H as [Hc H]; unfold getitem in G;
        destruct l; [|discriminate G]; injection G as <-;
        apply Forall2_nil_inv_r in H; unfold row_lists in H;
        apply fmap_nil_inv in H
    end.
    do 3 right. eexists _, _, _. split_and!; [done|done|done|done|by right].
  - right. right. left. by eexists [_], _.
  - left. split_and!; [done|done|]. by rewrite drop_all.
Qed.

(** Cell 27 when the endpoint answers with an array of shape (0, 10). *)
Lemma cell27_failures_witness :
  (IndexError = NameError ∧ env_data env_no_rows = None ∧
   emitted (cell27 env_no_rows) demo_state = []) ∨
  (IndexError = ValueError ∧ emitted (cell27 env_no_rows) demo_state = [] ∧
   ∃ data row1 row2, env_data env_no_rows = Some data ∧
     row1 ∈ data ∧ row2 ∈ data ∧ length row1 ≠ length row2) ∨
  raised_by_a_call (cell27 env_no_rows) demo_state IndexError ∨
  (∃ data image prediction,
     env_data env_no_rows = Some data ∧ np_array_float32 data = inr image ∧
     env_predict env_no_rows (log demo_state) image = inr prediction ∧
     emitted (cell27 env_no_rows) demo_state = [Ev Predict None] ∧
     (IndexError = ValueError ∧ columns prediction = 0
      ∨ IndexError = IndexError ∧ columns prediction ≠ 0 ∧ rows prediction = [])).
Proof.
  apply (cell27_failures env_no_rows demo_state IndexError).
  vm_compute. reflexivity.
Defined.

(** ** How a run fails *)

(** X15. Every failure has its cause in the log.  A run that ends with an
    exception ends with the exception of the last call it made (the cleanup
    of cell 7 aside), unless the exception is one of the three that the code
    raises by itself.  In particular the run never fails with the
    [AttributeError] of an estimator without a training job, nor with an
    [IndexError] of the indexing of cell 21. *)
Theorem failures_have_a_cause W fs0 e :
  outcome (run W fs0) = inl e →
  (∃ pre c rest, trace (run W fs0) = pre ++ Ev c (Some e) :: rest ∧ only_cleanup rest)
  ∨ own_exception W e (trace (run W fs0)).
Proof.
  change (wp (notebook W)
            (λ r s, r = inl e →
               (∃ pre c rest, log s = pre ++ Ev c (Some e) :: rest ∧ only_cleanup rest)
               ∨ own_exception W e (log s))
            {| fs := fs0; log := [] |}).
  wp_exec.
  all: intros Hr; try discriminate Hr; injection Hr as Hr; subst e.
  all: try (left;
            lazymatch goal with
            | |- ∃ pre c rest, ?l = _ ∧ _ =>
                first
                  [ exists (take (length l - 1) l); eexists _, [];
                    split; [reflexivity|by left]
                  | exists (take (length l - 2) l);
                    eexists _, [Ev (Rmtree "/tmp/data") None];
                    split; [reflexivity|by right] ]
            end).
  all: try match goal with
    | E : random_sample _ _ _ _ = inr ?l, H : take_indices (fst <$> ?d) ?l = inl _ |- _ =>
        apply sampled_in_bounds in E as [_ E];
        destruct (take_indices_in_bounds (fst <$> d) l E) as [? Hx];
        rewrite Hx in H; discriminate H
    | E : random_sample _ _ _ _ = inr ?l, H : take_indices (snd <$> ?d) ?l = inl _ |- _ =>
        apply sampled_in_bounds in E as [_ E];
        rewrite length_fmap, <- (length_fmap snd) in E;
        destruct (take_indices_in_bounds (snd <$> d) l E) as [? Hx];
        rewrite Hx in H; discriminate H
    end.
  all: try match goal with
    | H : reshape_28_28 _ = inl _ |- _ =>
        apply reshape_error in H as [-> _]; right; by left
    | H : argmax_axis1 _ = inl _ |- _ =>
        apply argmax_axis1_error in H as [-> _]; right; by left
    | H : np_array_float32 _ = inl _ |- _ =>
        apply np_array_error in H as [-> _]; right; by left
    | H : env_data _ = None |- _ => right; right; left; by split
    end.
  all: try match goal with
    | E : random_sample _ _ _ _ = inr ?l, Hi : take_indices (fst <$> _) ?l = inr ?a,
      Hl : take_indices (snd <$> _) ?l = inr ?b, H : getitem ?x ?i = inl _ |- _ =>
        first [ constr_eq x a | constr_eq x b ];
        apply sampled_in_bounds in E as [E _];
        apply take_indices_inv, Forall2_length in Hi, Hl;
        exfalso; apply getitem_in_bounds in H; [done|lia]
    end.
  all: match goal with
    | H : getitem _ 0 = inl _ |- _ =>
        unfold getitem in H; case_match; [discriminate H|injection H as <-];
        right; right; right; split; reflexivity
    end.
Qed.

(** The run in which the second upload of cell 7 fails. *)
Lemma failures_have_a_cause_witness :
  (∃ pre c rest,
     trace (run env_upload_fails ∅) = pre ++ Ev c (Some (ClientError "throttled")) :: rest ∧
     only_cleanup rest)
  ∨ own_exception env_upload_fails (ClientError "throttled")
      (trace (run env_upload_fails ∅)).
Proof.
  apply (failures_have_a_cause env_upload_fails ∅ (ClientError "throttled")).
  vm_compute. reflexivity.
Defined.
